(** * Print preview subsystem: registry, option merging, preview lifecycle

    A shallow embedding of
      - [PrintService]            (core/services/print.service.ts),
      - [PrintPreviewComponent]   (shared/components/print-preview),
      - [BasePrintTemplateComponent] (shared/print-templates/base),
    with the properties of the specification stated and proved over it.

    JavaScript data is modelled as the code has it: the template registry is
    a [Map] (insertion ordered, keys unique), option objects are plain
    objects used as string-keyed maps, the service and the dialogs it opens
    are mutable state threaded explicitly, and a [throw] is an error result. *)

From Stdlib Require Import String List ZArith Lia Bool.
From stdpp Require Import base option gmap strings list fin_maps.

Local Open Scope string_scope.
Import ListNotations.

(* ===================================================================== *)
(** ** JavaScript values                                                  *)
(* ===================================================================== *)

(** The values that travel through the print system.  Numbers are only
    stored and handed on (never computed with), objects other than option
    objects are handled by reference. *)
Inductive JsValue : Type :=
| JUndefined
| JNull
| JBool (b : bool)
| JNum (n : Z)
| JStr (s : string)
| JRef (addr : nat).

#[global] Instance JsValue_eq_dec : EqDecision JsValue.
Proof. solve_decision. Defined.

(** A plain object used as a map from property name to value.  A property
    can be present and hold [JUndefined]; that differs from being absent. *)
Abbreviation JsObject := (gmap string JsValue).

(** [obj.k]: reading an absent property yields [undefined]. *)
Definition prop (o : JsObject) (k : string) : JsValue :=
  default JUndefined (o !! k).

(** [o?.k] on a value that may be [undefined]. *)
Definition opt_prop (o : option JsObject) (k : string) : JsValue :=
  match o with
  | None => JUndefined
  | Some ob => prop ob k
  end.

(** [v ?? d]: the right operand only for [null] and [undefined]. *)
Definition nullish (v d : JsValue) : JsValue :=
  match v with
  | JUndefined | JNull => d
  | _ => v
  end.

(** Truthiness: [undefined], [null], [false], [0] and the empty string are
    falsy. *)
Definition truthy (v : JsValue) : bool :=
  match v with
  | JUndefined | JNull => false
  | JBool b => b
  | JNum n => negb (Z.eqb n 0)
  | JStr s => negb (String.eqb s EmptyString)
  | JRef _ => true
  end.

(** [v || d] *)
Definition or_value (v d : JsValue) : JsValue :=
  if truthy v then v else d.

(** [{ ...target, ...src }]: every own property of [src] is copied over
    [target], whatever its value. *)
Definition spread (target src : JsObject) : JsObject := src ∪ target.

(** An object literal [{ k1: v1, ..., kn: vn }] (a later duplicate wins). *)
Definition literal (ps : list (string * JsValue)) : JsObject :=
  fold_left (fun o p => <[p.1 := p.2]> o) ps ∅.

(* ===================================================================== *)
(** ** [Map<string, V>]                                                   *)
(* ===================================================================== *)

(** A JavaScript [Map] iterates in insertion order and [set] on a key that
    is present keeps the key's position, so the registry is an association
    list; [keys] feeds the error message of [preview], where order shows. *)
Module JsMap.
Section Ops.
Context {V : Type}.

Definition t := list (string * V).

Definition empty : t := [].

Fixpoint get (k : string) (m : t) : option V :=
  match m with
  | [] => None
  | (k', v) :: m' => if String.eqb k k' then Some v else get k m'
  end.

Definition has (k : string) (m : t) : bool :=
  match get k m with Some _ => true | None => false end.

Fixpoint set (k : string) (v : V) (m : t) : t :=
  match m with
  | [] => [(k, v)]
  | (k', v') :: m' =>
      if String.eqb k k' then (k, v) :: m' else (k', v') :: set k v m'
  end.

Fixpoint delete (k : string) (m : t) : t :=
  match m with
  | [] => []
  | (k', v') :: m' =>
      if String.eqb k k' then m' else (k', v') :: delete k m'
  end.

Definition keys (m : t) : list string := map fst m.
Definition values (m : t) : list V := map snd m.
Definition size (m : t) : nat := length m.

(** The invariant every [Map] has: no key twice. *)
Definition wf (m : t) : Prop := NoDup (keys m).
End Ops.
Arguments t : clear implicits.
End JsMap.

(* ===================================================================== *)
(** ** Print options                                                      *)
(* ===================================================================== *)

(** The table of [mergeDefaultOptions]. *)
Definition defaults : JsObject :=
  literal [ ("orientation", JStr "portrait");
            ("pageSize", JStr "A4");
            ("showHeader", JBool true);
            ("showFooter", JBool true);
            ("showPageNumbers", JBool false);
            ("title", JStr "Document");
            ("rtl", JBool false);
            ("copies", JNum 1) ].

(** [mergeDefaultOptions(options?)]: [{ ...defaults, ...options }];
    spreading [undefined] copies nothing. *)
Definition mergeDefaultOptions (options : option JsObject) : JsObject :=
  spread (spread ∅ defaults) (default ∅ options).

(** [BasePrintTemplateComponent]: the computed fields, as functions of the
    value held by [optionsSignal]. *)
Module BasePrintTemplateComponent.

Definition showHeader (optionsSignal : option JsObject) : JsValue :=
  nullish (opt_prop optionsSignal "showHeader") (JBool true).

Definition showFooter (optionsSignal : option JsObject) : JsValue :=
  nullish (opt_prop optionsSignal "showFooter") (JBool true).

Definition pageSize (optionsSignal : option JsObject) : JsValue :=
  nullish (opt_prop optionsSignal "pageSize") (JStr "A4").

Definition orientation (optionsSignal : option JsObject) : JsValue :=
  nullish (opt_prop optionsSignal "orientation") (JStr "portrait").

Definition isRtl (optionsSignal : option JsObject) : JsValue :=
  nullish (opt_prop optionsSignal "rtl") (JBool false).

Definition title (optionsSignal : option JsObject) : JsValue :=
  nullish (opt_prop optionsSignal "title") (JStr "Document").

Definition showPageNumbers (optionsSignal : option JsObject) : JsValue :=
  nullish (opt_prop optionsSignal "showPageNumbers") (JBool false).

Definition watermark (optionsSignal : option JsObject) : JsValue :=
  opt_prop optionsSignal "watermark".

End BasePrintTemplateComponent.

(* ===================================================================== *)
(** ** Models ([print.models.ts]) and the state of the running page       *)
(* ===================================================================== *)

(** A component class ([Type<any>]), known by its selector. *)
Inductive ComponentType : Type := ComponentClass (selector : string).

(** [PrintTemplate].  The handle is [None] when a caller registered
    [null]/[undefined] past the type checker; [loadTemplate] tests for it. *)
Record PrintTemplate : Type := {
  key : string;
  component : option ComponentType;
  description : option string
}.

Record PrintConfig : Type := {
  templateKey : string;
  data : JsValue;
  options : option JsObject
}.

Record PrintPreviewData : Type := {
  templateComponent : option ComponentType;
  preview_data : JsValue;
  preview_options : JsObject
}.

Inductive JsError : Type := Error (message : string).

Inductive PromiseState : Type :=
| Pending
| Fulfilled
| Rejected (reason : JsError).

(** The one kind of subscriber [closed] ever gets, from [preview]:
    [() => { this.activeDialogRef = null; resolve(); }] for promise [p]. *)
Inductive Subscriber : Type := OnClosed (p : nat).

Inductive ViewContainerRef : Type := ViewContainer (anchor : string).

(** What a template instance was given by [loadTemplate]. *)
Record TemplateInstance : Type := {
  inst_class : ComponentType;
  inst_data : JsValue;
  inst_options : JsObject
}.

(** A dialog: the CDK [DialogRef] together with the
    [PrintPreviewComponent] instance living in it. *)
Record DialogRef : Type := {
  dialog_data : PrintPreviewData;                (* DIALOG_DATA *)
  dialog_open : bool;                            (* not yet closed *)
  closed : list Subscriber;                      (* subscribers of [closed] *)
  templateContainer : option ViewContainerRef;  (* @ViewChild *)
  isLoading : bool;
  error : option string;
  componentRef : option TemplateInstance
}.

(** Callbacks handed to [setTimeout]. *)
Inductive Task : Type :=
| TaskLoadTemplate (d : nat)   (* () => this.loadTemplate(), in dialog d *)
| TaskPrint                    (* () => this.print() *)
| TaskWindowPrint.             (* () => window.print() *)

(** What the page does that can be observed from outside. *)
Inductive Event : Type :=
| ConsoleLog (msg : string)
| ConsoleWarn (msg : string)
| ConsoleError (msg : string)
| DialogOpen (d : nat)         (* dialog.open returned ref d *)
| DialogClose (d : nat)        (* close() was called on ref d *)
| WindowPrint.                 (* window.print() was called *)

(** The [PrintService] singleton ([templateRegistry], [activeDialogRef])
    and the heap around it: dialog refs and promises by identity, pending
    timers as (due time, callback), the clock, and the events so far. *)
Record World : Type := {
  templateRegistry : JsMap.t PrintTemplate;
  activeDialogRef : option nat;
  dialogs : list DialogRef;
  promises : list PromiseState;
  timers : list (nat * Task);
  now : nat;
  trace : list Event
}.

Definition initial : World :=
  {| templateRegistry := JsMap.empty; activeDialogRef := None; dialogs := [];
     promises := []; timers := []; now := 0; trace := [] |}.

Definition with_registry (f : JsMap.t PrintTemplate -> JsMap.t PrintTemplate)
  (w : World) : World :=
  {| templateRegistry := f (templateRegistry w);
     activeDialogRef := activeDialogRef w; dialogs := dialogs w;
     promises := promises w; timers := timers w; now := now w;
     trace := trace w |}.

Definition with_active (a : option nat) (w : World) : World :=
  {| templateRegistry := templateRegistry w;
     activeDialogRef := a; dialogs := dialogs w;
     promises := promises w; timers := timers w; now := now w;
     trace := trace w |}.

Definition with_dialogs (f : list DialogRef -> list DialogRef)
  (w : World) : World :=
  {| templateRegistry := templateRegistry w;
     activeDialogRef := activeDialogRef w; dialogs := f (dialogs w);
     promises := promises w; timers := timers w; now := now w;
     trace := trace w |}.

Definition with_promises (f : list PromiseState -> list PromiseState)
  (w : World) : World :=
  {| templateRegistry := templateRegistry w;
     activeDialogRef := activeDialogRef w; dialogs := dialogs w;
     promises := f (promises w); timers := timers w; now := now w;
     trace := trace w |}.

Definition with_timers (f : list (nat * Task) -> list (nat * Task))
  (w : World) : World :=
  {| templateRegistry := templateRegistry w;
     activeDialogRef := activeDialogRef w; dialogs := dialogs w;
     promises := promises w; timers := f (timers w); now := now w;
     trace := trace w |}.

Definition with_now (t : nat) (w : World) : World :=
  {| templateRegistry := templateRegistry w;
     activeDialogRef := activeDialogRef w; dialogs := dialogs w;
     promises := promises w; timers := timers w; now := t;
     trace := trace w |}.

Definition with_trace (f : list Event -> list Event) (w : World) : World :=
  {| templateRegistry := templateRegistry w;
     activeDialogRef := activeDialogRef w; dialogs := dialogs w;
     promises := promises w; timers := timers w; now := now w;
     trace := f (trace w) |}.

(* ===================================================================== *)
(** ** Computations: state and exceptions                                 *)
(* ===================================================================== *)

(** How a call ends: it returns, or it throws. *)
Inductive Completion (A : Type) : Type :=
| Normal (a : A)
| Throw (e : JsError).
Arguments Normal {A} a.
Arguments Throw {A} e.

(** A method of the page: from the state before to how it ends and the
    state after (what was mutated before a [throw] stays mutated). *)
Definition Js (A : Type) : Type := World -> Completion A * World.

Definition ret {A} (a : A) : Js A := fun w => (Normal a, w).

Definition bind {A B} (m : Js A) (k : A -> Js B) : Js B :=
  fun w =>
    match m w with
    | (Normal a, w') => k a w'
    | (Throw e, w') => (Throw e, w')
    end.

Definition throw {A} (e : JsError) : Js A := fun w => (Throw e, w).

(** [try { body } catch (err) { handler(err) }] *)
Definition try_catch {A} (body : Js A) (handler : JsError -> Js A) : Js A :=
  fun w =>
    match body w with
    | (Normal a, w') => (Normal a, w')
    | (Throw e, w') => handler e w'
    end.

Definition gets {A} (f : World -> A) : Js A := fun w => (Normal (f w), w).
Definition modify (f : World -> World) : Js unit := fun w => (Normal tt, f w).

Declare Scope js_scope.
Delimit Scope js_scope with js.
Notation "x <- m ;; k" := (bind m (fun x => k))
  (at level 100, m at next level, right associativity) : js_scope.
Notation "m ;;; k" := (bind m (fun _ : unit => k))
  (at level 100, right associativity) : js_scope.
Local Open Scope js_scope.

Definition emit (e : Event) : Js unit :=
  modify (with_trace (fun t => (t ++ [e])%list)).

(** [setTimeout(cb, ms)] *)
Definition setTimeout (cb : Task) (ms : nat) : Js unit :=
  fun w => (Normal tt, with_timers (fun ts => (ts ++ [(now w + ms, cb)])%list) w).

(** [a || b] on strings: the empty string is the only falsy one. *)
Definition or_string (a b : string) : string :=
  if String.eqb a EmptyString then b else a.

(** [xs.join(sep)] *)
Definition join (sep : string) (xs : list string) : string :=
  String.concat sep xs.

(* ===================================================================== *)
(** ** Promises and the CDK dialog                                        *)
(* ===================================================================== *)

(** [new Promise(...)]: a fresh pending promise. *)
Definition new_promise : Js nat :=
  fun w => (Normal (length (promises w)),
            with_promises (fun ps => (ps ++ [Pending])%list) w).

(** [resolve()]: settles a pending promise, does nothing to a settled one. *)
Definition resolve (p : nat) : Js unit :=
  modify (with_promises
            (alter (fun st => match st with Pending => Fulfilled | _ => st end) p)).

(** The ref [dialog.open] creates: open, nobody subscribed, the component
    with [isLoading = signal(true)], [error = signal(null)] and no view
    child yet. *)
Definition fresh_dialog (previewData : PrintPreviewData) : DialogRef :=
  {| dialog_data := previewData; dialog_open := true; closed := [];
     templateContainer := None; isLoading := true; error := None;
     componentRef := None |}.

(** [dialog.open(PrintPreviewComponent, { data, ... })] *)
Definition Dialog_open (previewData : PrintPreviewData) : Js nat :=
  fun w =>
    let d := length (dialogs w) in
    (Normal d,
     with_trace (fun t => (t ++ [DialogOpen d])%list)
       (with_dialogs (fun ds => (ds ++ [fresh_dialog previewData])%list) w)).

(** [ref.closed.subscribe(s)]; a ref already closed has completed and keeps
    no subscriber. *)
Definition add_subscriber (s : Subscriber) (r : DialogRef) : DialogRef :=
  {| dialog_data := dialog_data r;
     dialog_open := dialog_open r;
     closed := if dialog_open r then (closed r ++ [s])%list else closed r;
     templateContainer := templateContainer r;
     isLoading := isLoading r; error := error r;
     componentRef := componentRef r |}.

Definition subscribe_closed (d : nat) (s : Subscriber) : Js unit :=
  modify (with_dialogs (alter (add_subscriber s) d)).

(** The body of the arrow function [preview] subscribes. *)
Definition run_subscriber (s : Subscriber) : Js unit :=
  match s with
  | OnClosed p => modify (with_active None) ;;; resolve p
  end.

Fixpoint run_subscribers (ss : list Subscriber) : Js unit :=
  match ss with
  | [] => ret tt
  | s :: rest => run_subscriber s ;;; run_subscribers rest
  end.

(** A ref after [close()]: closed for good, [closed] completed. *)
Definition mark_closed (r : DialogRef) : DialogRef :=
  {| dialog_data := dialog_data r;
     dialog_open := false;
     closed := [];
     templateContainer := templateContainer r;
     isLoading := isLoading r; error := error r;
     componentRef := componentRef r |}.

(** [ref.close()] of the CDK: on a ref still open, [closed] emits to its
    subscribers at once and completes, and the ref is closed for good; on a
    closed ref nothing happens. *)
Definition DialogRef_close (d : nat) : Js unit :=
  emit (DialogClose d) ;;;
  ds <- gets dialogs ;;
  match ds !! d with
  | Some r =>
      if dialog_open r then
        run_subscribers (closed r) ;;;
        modify (with_dialogs (alter mark_closed d))
      else ret tt
  | None => ret tt
  end.

(* ===================================================================== *)
(** ** [PrintService]                                                     *)
(* ===================================================================== *)

Module PrintService.

Definition registerTemplate (key : string) (component : option ComponentType)
  (description : option string) : Js unit :=
  reg <- gets templateRegistry ;;
  (if JsMap.has key reg
   then emit (ConsoleWarn ("Print template with key '" ++ key ++
                           "' is already registered. Overwriting..."))
   else ret tt) ;;;
  modify (with_registry
            (JsMap.set key {| key := key; component := component;
                              description := description |})) ;;;
  emit (ConsoleLog ("Print template '" ++ key ++ "' registered successfully")).

Definition getTemplate (key : string) : Js (option PrintTemplate) :=
  gets (fun w => JsMap.get key (templateRegistry w)).

Definition getRegisteredTemplates : Js (list string) :=
  gets (fun w => JsMap.keys (templateRegistry w)).

Definition getAllTemplates : Js (list PrintTemplate) :=
  gets (fun w => JsMap.values (templateRegistry w)).

Definition hasTemplate (key : string) : Js bool :=
  gets (fun w => JsMap.has key (templateRegistry w)).

Definition preview (config : PrintConfig) : Js nat :=
  template <- getTemplate (templateKey config) ;;
  match template with
  | None =>
      keys <- getRegisteredTemplates ;;
      let availableTemplates := join ", " keys in
      throw (Error ("Print template '" ++ templateKey config ++ "' not found. " ++
                    "Available templates: " ++ or_string availableTemplates "none"))
  | Some template =>
      let previewData :=
        {| templateComponent := component template;
           preview_data := data config;
           preview_options := mergeDefaultOptions (options config) |} in
      active <- gets activeDialogRef ;;
      (match active with
       | Some d => DialogRef_close d
       | None => ret tt
       end) ;;;
      d <- Dialog_open previewData ;;
      modify (with_active (Some d)) ;;;
      p <- new_promise ;;
      ref <- gets activeDialogRef ;;
      (match ref with
       | Some d' => subscribe_closed d' (OnClosed p)
       | None => throw (Error "Cannot read properties of null (reading 'closed')")
       end) ;;;
      ret p
  end.

Definition print : Js unit :=
  setTimeout TaskWindowPrint 250.

Definition printDirect (config : PrintConfig) : Js nat :=
  template <- getTemplate (templateKey config) ;;
  match template with
  | None =>
      throw (Error ("Print template '" ++ templateKey config ++ "' not found"))
  | Some _ =>
      previewPromise <- preview config ;;
      setTimeout TaskPrint 100 ;;;
      ret previewPromise
  end.

Definition closePreview : Js unit :=
  active <- gets activeDialogRef ;;
  match active with
  | Some d => DialogRef_close d ;;; modify (with_active None)
  | None => ret tt
  end.

Definition unregisterTemplate (key : string) : Js bool :=
  existed <- hasTemplate key ;;
  modify (with_registry (JsMap.delete key)) ;;;
  ret existed.

Definition clearAllTemplates : Js unit :=
  modify (with_registry (fun _ => JsMap.empty)) ;;;
  emit (ConsoleLog "All print templates cleared").

Definition getStats : Js (nat * list string) :=
  count <- gets (fun w => JsMap.size (templateRegistry w)) ;;
  templates <- getRegisteredTemplates ;;
  ret (count, templates).

End PrintService.

(** [registerDefaultTemplates(printService)()] of register-templates.ts. *)
Definition registerDefaultTemplates : Js unit :=
  PrintService.registerTemplate "invoice"
    (Some (ComponentClass "app-invoice-print"))
    (Some "Professional invoice template with itemized billing") ;;;
  PrintService.registerTemplate "report"
    (Some (ComponentClass "app-report-print"))
    (Some "Multi-section report template with data tables and summaries") ;;;
  PrintService.registerTemplate "table"
    (Some (ComponentClass "app-table-print"))
    (Some "Data table template with customizable columns and filters") ;;;
  emit (ConsoleLog "Print templates registered successfully").

(* ===================================================================== *)
(** ** [PrintPreviewComponent]                                            *)
(* ===================================================================== *)

Record KeyboardEvent : Type := {
  ctrlKey : bool;
  metaKey : bool;
  event_key : string
}.

(** The three states the preview shows, read off its two signals. *)
Inductive HostState : Type := Loading | Ready | Failed.

Module PrintPreviewComponent.

(** [isReady = computed(() => !this.isLoading() && !this.error())];
    a string is falsy only when empty. *)
Definition isReady (c : DialogRef) : bool :=
  negb (isLoading c) &&
  match error c with None => true | Some msg => String.eqb msg EmptyString end.

Definition state (c : DialogRef) : HostState :=
  if isLoading c then Loading
  else if isReady c then Ready else Failed.

Definition update (d : nat) (f : DialogRef -> DialogRef) : Js unit :=
  modify (with_dialogs (alter f d)).

Definition set_isLoading (b : bool) (c : DialogRef) : DialogRef :=
  {| dialog_data := dialog_data c; dialog_open := dialog_open c;
     closed := closed c; templateContainer := templateContainer c;
     isLoading := b; error := error c; componentRef := componentRef c |}.

Definition set_error (e : option string) (c : DialogRef) : DialogRef :=
  {| dialog_data := dialog_data c; dialog_open := dialog_open c;
     closed := closed c; templateContainer := templateContainer c;
     isLoading := isLoading c; error := e; componentRef := componentRef c |}.

Definition set_componentRef (i : option TemplateInstance) (c : DialogRef)
  : DialogRef :=
  {| dialog_data := dialog_data c; dialog_open := dialog_open c;
     closed := closed c; templateContainer := templateContainer c;
     isLoading := isLoading c; error := error c; componentRef := i |}.

Definition set_templateContainer (v : option ViewContainerRef) (c : DialogRef)
  : DialogRef :=
  {| dialog_data := dialog_data c; dialog_open := dialog_open c;
     closed := closed c; templateContainer := v;
     isLoading := isLoading c; error := error c;
     componentRef := componentRef c |}.

(** The framework resolving [@ViewChild('templateContainer')] (or failing
    to: [None]) before it calls [ngAfterViewInit]. *)
Definition resolveViewChild (d : nat) (v : option ViewContainerRef) : Js unit :=
  update d (set_templateContainer v).

Definition ngAfterViewInit (d : nat) : Js unit :=
  setTimeout (TaskLoadTemplate d) 0.

Section Rendering.

(** The template classes are outside the core: whether constructing one, or
    its first change detection, throws is theirs to decide. *)
Variable createComponent : ComponentType -> option JsError.
Variable detectChanges : TemplateInstance -> option JsError.

Definition may_throw (r : option JsError) : Js unit :=
  match r with
  | None => ret tt
  | Some e => throw e
  end.

Definition loadTemplate_try (d : nat) (c : DialogRef) : Js unit :=
  emit (ConsoleLog "Loading template...") ;;;
  emit (ConsoleLog "Template component:") ;;;
  emit (ConsoleLog "ViewContainerRef:") ;;;
  match templateContainer c with
  | None => throw (Error "ViewContainerRef is not available")
  | Some _ =>
      match templateComponent (dialog_data c) with
      | None => throw (Error "Template component is not defined")
      | Some cls =>
          may_throw (createComponent cls) ;;;
          emit (ConsoleLog "Component created:") ;;;
          let instance :=
            {| inst_class := cls;
               inst_data := preview_data (dialog_data c);
               inst_options := preview_options (dialog_data c) |} in
          update d (set_componentRef (Some instance)) ;;;
          may_throw (detectChanges instance) ;;;
          update d (set_isLoading false) ;;;
          emit (ConsoleLog "Template loaded successfully")
      end
  end.

Definition loadTemplate (d : nat) : Js unit :=
  ds <- gets dialogs ;;
  match ds !! d with
  | None => ret tt
  | Some c =>
      try_catch (loadTemplate_try d c)
        (fun err =>
           emit (ConsoleError "Error loading print template:") ;;;
           update d (set_error
                       (Some "Failed to load print template. Please try again.")) ;;;
           update d (set_isLoading false))
  end.

(** [getTitle()]: [this.data.options?.title || 'Print Preview'] *)
Definition getTitle (c : DialogRef) : JsValue :=
  or_value (prop (preview_options (dialog_data c)) "title")
           (JStr "Print Preview").

Definition onPrint : Js unit := PrintService.print.

Definition onClose (d : nat) : Js unit := DialogRef_close d.

Definition onKeydown (d : nat) (event : KeyboardEvent) : Js unit :=
  if (ctrlKey event || metaKey event) && String.eqb (event_key event) "p"
  then onPrint
  else if String.eqb (event_key event) "Escape"
  then onClose d
  else ret tt.

(** *** The timer queue *)

Definition run_task (k : Task) : Js unit :=
  match k with
  | TaskLoadTemplate d => loadTemplate d
  | TaskPrint => PrintService.print
  | TaskWindowPrint => emit WindowPrint
  end.

Definition min_due (ts : list (nat * Task)) : option nat :=
  fold_right (fun p acc =>
                match acc with
                | None => Some p.1
                | Some m => Some (Nat.min p.1 m)
                end) None ts.

Fixpoint take_due (t : nat) (ts : list (nat * Task))
  : option (Task * list (nat * Task)) :=
  match ts with
  | [] => None
  | (t', k) :: rest =>
      if Nat.eqb t' t then Some (k, rest)
      else match take_due t rest with
           | Some (k', rest') => Some (k', (t', k) :: rest')
           | None => None
           end
  end.

(** One turn of the timer phase: the pending callback that is due first
    (the older one among equals) runs to its end; [false] when none is
    pending.  An exception escaping a callback is reported by the browser
    and goes no further. *)
Definition tick : Js bool :=
  fun w =>
    match min_due (timers w) with
    | None => (Normal false, w)
    | Some t =>
        match take_due t (timers w) with
        | None => (Normal false, w)
        | Some (k, rest) =>
            let w1 := with_now (Nat.max (now w) t)
                        (with_timers (fun _ => rest) w) in
            (Normal true, (run_task k w1).2)
        end
    end.

Fixpoint ticks (n : nat) : Js unit :=
  match n with
  | O => ret tt
  | S n' => _ <- tick ;; ticks n'
  end.

End Rendering.
End PrintPreviewComponent.

(* ===================================================================== *)
(** ** Vocabulary of the specification                                    *)
(* ===================================================================== *)

(** [needle] occurs in [hay]. *)
Fixpoint contains (needle hay : string) : bool :=
  String.prefix needle hay ||
  match hay with
  | EmptyString => false
  | String _ hay' => contains needle hay'
  end.

(** The default table as the specification documents it:
    orientation=portrait, pageSize=A4, showHeader=true, showFooter=true,
    showPageNumbers=false, title="Document", rtl=false, copies=1. *)
Definition documented_defaults : list (string * JsValue) :=
  [ ("orientation", JStr "portrait"); ("pageSize", JStr "A4");
    ("showHeader", JBool true); ("showFooter", JBool true);
    ("showPageNumbers", JBool false); ("title", JStr "Document");
    ("rtl", JBool false); ("copies", JNum 1) ].

(** The options with a documented default. *)
Definition defaulted_fields : list string := map fst documented_defaults.

Definition defined (v : JsValue) : bool :=
  match v with JUndefined => false | _ => true end.

(** Every defaulted field reads as something other than [undefined]. *)
Definition fully_populated (o : JsObject) : bool :=
  forallb (fun k => defined (prop o k)) defaulted_fields.

(** The events a call added to the trace. *)
Definition emitted (before after : World) : list Event :=
  drop (length (trace before)) (trace after).

(** How many times [close()] was called on ref [d] among [es]. *)
Definition closes_of (d : nat) (es : list Event) : nat :=
  length (List.filter (fun e => match e with
                           | DialogClose d' => Nat.eqb d d'
                           | _ => false
                           end) es).

Definition no_rendering_error (_ : ComponentType) : option JsError := None.
Definition no_detection_error (_ : TemplateInstance) : option JsError := None.

(** C1 as the specification words it: after a failed mount the promise
    of [preview] is rejected. *)
Definition mount_failure_rejects (w : World) (config : PrintConfig)
  (v : option ViewContainerRef) : Prop :=
  forall p w1 d w2,
    PrintService.preview config w = (Normal p, w1) ->
    activeDialogRef w1 = Some d ->
    (PrintPreviewComponent.resolveViewChild d v ;;;
     PrintPreviewComponent.loadTemplate
       no_rendering_error no_detection_error d) w1 = (Normal tt, w2) ->
    (exists c, dialogs w2 !! d = Some c /\
               PrintPreviewComponent.state c = Failed) /\
    (exists e, promises w2 !! p = Some (Rejected e)).

(** C6 as the specification words it: the error of [printDirect] names the
    requested key and the registered keys. *)
Definition printDirect_lists_keys (w : World) (config : PrintConfig) : Prop :=
  exists msg,
    (PrintService.printDirect config w).1 = Throw (Error msg) /\
    contains (templateKey config) msg = true /\
    contains (join ", " (JsMap.keys (templateRegistry w))) msg = true.

(** C7 as the specification words it: with no active session, [print()]
    never leads to [window.print()]. *)
Definition print_idle_without_session (w : World) : Prop :=
  activeDialogRef w = None ->
  forall n w',
    (PrintService.print ;;;
     PrintPreviewComponent.ticks no_rendering_error no_detection_error n) w
      = (Normal tt, w') ->
    ~ In WindowPrint (emitted w w').

(** Worlds used as concrete inputs. *)
Definition registered : World := (registerDefaultTemplates initial).2.

Definition config_for (k : string) : PrintConfig :=
  {| templateKey := k; data := JRef 0; options := None |}.

(** *** States reached by the methods, written out *)

(** What [registerTemplate] leaves behind. *)
Definition registerTemplate_result (k : string) (r : option ComponentType)
  (d : option string) (w : World) : World :=
  with_trace
    (fun t =>
       (t ++
        (if JsMap.has k (templateRegistry w)
         then [ConsoleWarn ("Print template with key '" ++ k ++
                            "' is already registered. Overwriting...")]
         else []) ++
        [ConsoleLog ("Print template '" ++ k ++ "' registered successfully")])%list)
    (with_registry
       (JsMap.set k {| key := k; component := r; description := d |}) w).

(** The first half of [preview] past the lookup: closing what is active. *)
Definition close_active : Js unit :=
  active <- gets activeDialogRef ;;
  match active with
  | Some d => DialogRef_close d
  | None => ret tt
  end.

(** The second half of [preview], from the state [w0] the closing left. *)
Definition preview_opened (pd : PrintPreviewData) (w0 : World) : World :=
  {| templateRegistry := templateRegistry w0;
     activeDialogRef := Some (length (dialogs w0));
     dialogs := (dialogs w0 ++
                 [add_subscriber (OnClosed (length (promises w0)))
                    (fresh_dialog pd)])%list;
     promises := (promises w0 ++ [Pending])%list;
     timers := timers w0;
     now := now w0;
     trace := (trace w0 ++ [DialogOpen (length (dialogs w0))])%list |}.

Definition previewData_of (t : PrintTemplate) (config : PrintConfig)
  : PrintPreviewData :=
  {| templateComponent := component t;
     preview_data := data config;
     preview_options := mergeDefaultOptions (options config) |}.

(** The state in which [close()] leaves a world whose newest ref [r] has
    the newest promise as its only subscriber. *)
Definition closed_last (w : World) (ds : list DialogRef) (r : DialogRef)
  (ps : list PromiseState) : World :=
  {| templateRegistry := templateRegistry w;
     activeDialogRef := None;
     dialogs := (ds ++ [mark_closed r])%list;
     promises := (ps ++ [Fulfilled])%list;
     timers := timers w;
     now := now w;
     trace := (trace w ++ [DialogClose (length ds)])%list |}.

(* ===================================================================== *)
(** ** Whole runs of the page                                             *)
(* ===================================================================== *)

(** Everything that can happen to the page: calls of the service by
    application code, what the framework and the user do to the preview
    [d], and a timer coming due.  [ActViewInit] is the framework resolving
    the view child and then calling [ngAfterViewInit]. *)
Inductive Action : Type :=
| ActRegister (k : string) (c : option ComponentType) (d : option string)
| ActUnregister (k : string)
| ActClearAll
| ActPreview (config : PrintConfig)
| ActPrintDirect (config : PrintConfig)
| ActPrint
| ActClosePreview
| ActViewInit (d : nat) (v : option ViewContainerRef)
| ActKeydown (d : nat) (event : KeyboardEvent)
| ActCloseButton (d : nat)
| ActPrintButton
| ActTick.

Section Runs.
Variable createComponent : ComponentType -> option JsError.
Variable detectChanges : TemplateInstance -> option JsError.

(** The state an action leaves, whether it returned or threw (the caller
    catches, the page goes on). *)
Definition step (a : Action) (w : World) : World :=
  match a with
  | ActRegister k c d => (PrintService.registerTemplate k c d w).2
  | ActUnregister k => (PrintService.unregisterTemplate k w).2
  | ActClearAll => (PrintService.clearAllTemplates w).2
  | ActPreview config => (PrintService.preview config w).2
  | ActPrintDirect config => (PrintService.printDirect config w).2
  | ActPrint => (PrintService.print w).2
  | ActClosePreview => (PrintService.closePreview w).2
  | ActViewInit d v =>
      ((PrintPreviewComponent.resolveViewChild d v ;;;
        PrintPreviewComponent.ngAfterViewInit d) w).2
  | ActKeydown d event =>
      (PrintPreviewComponent.onKeydown d event w).2
  | ActCloseButton d => (PrintPreviewComponent.onClose d w).2
  | ActPrintButton => (PrintPreviewComponent.onPrint w).2
  | ActTick =>
      (PrintPreviewComponent.tick createComponent detectChanges w).2
  end.

Definition run (acts : list Action) (w : World) : World :=
  fold_left (fun w a => step a w) acts w.

End Runs.

(** The part of a ref the service's bookkeeping depends on. *)
Definition session_of (r : DialogRef) : bool * list Subscriber :=
  (dialog_open r, closed r).

(** Every descriptor is stored under its own [key]. *)
Definition registry_consistent (m : JsMap.t PrintTemplate) : Prop :=
  Forall (fun kt => key kt.2 = kt.1) m.

(** An open ref is the active one, and its only subscriber settles a
    promise that is still pending. *)
Definition open_is_active (w : World) : Prop :=
  forall d r,
    dialogs w !! d = Some r -> dialog_open r = true ->
    activeDialogRef w = Some d /\
    exists p, closed r = [OnClosed p] /\ promises w !! p = Some Pending.

(** The active reference is a ref that exists and is open. *)
Definition active_is_open (w : World) : Prop :=
  forall d,
    activeDialogRef w = Some d ->
    exists r, dialogs w !! d = Some r /\ dialog_open r = true.

(** A promise is fulfilled, or pending with its ref still open. *)
Definition promises_track_dialogs (w : World) : Prop :=
  forall p s,
    promises w !! p = Some s ->
    s = Fulfilled \/
    (s = Pending /\
     exists d r, dialogs w !! d = Some r /\ dialog_open r = true /\
                 closed r = [OnClosed p]).

Record Inv (w : World) : Prop := {
  inv_wf : JsMap.wf (templateRegistry w);
  inv_consistent : registry_consistent (templateRegistry w);
  inv_open : open_is_active w;
  inv_active : active_is_open w;
  inv_promises : promises_track_dialogs w
}.

(** Worlds that differ in nothing the invariant looks at. *)
Definition same_sessions (w w' : World) : Prop :=
  templateRegistry w' = templateRegistry w /\
  activeDialogRef w' = activeDialogRef w /\
  promises w' = promises w /\
  session_of <$> dialogs w' = session_of <$> dialogs w.

(** The descriptors [registerDefaultTemplates] installs. *)
Definition invoice_template : PrintTemplate :=
  {| key := "invoice";
     component := Some (ComponentClass "app-invoice-print");
     description :=
       Some "Professional invoice template with itemized billing" |}.

Definition report_template : PrintTemplate :=
  {| key := "report";
     component := Some (ComponentClass "app-report-print");
     description :=
       Some "Multi-section report template with data tables and summaries" |}.

Definition table_template : PrintTemplate :=
  {| key := "table";
     component := Some (ComponentClass "app-table-print");
     description :=
       Some "Data table template with customizable columns and filters" |}.

(** How many warnings are among [es]. *)
Definition warnings (es : list Event) : nat :=
  length (List.filter (fun e => match e with
                                | ConsoleWarn _ => true
                                | _ => false
                                end) es).

(** A run used as concrete input: register, preview, preview again. *)
Definition demo_run : list Action :=
  [ ActRegister "invoice" (Some (ComponentClass "app-invoice-print")) None;
    ActPreview (config_for "invoice");
    ActPreview (config_for "invoice") ].

(** What [loadTemplate] hands to the template it creates in [c]. *)
Definition instance_for (c : DialogRef) (cls : ComponentType)
  : TemplateInstance :=
  {| inst_class := cls;
     inst_data := preview_data (dialog_data c);
     inst_options := preview_options (dialog_data c) |}.

(** Everything [loadTemplate] needs is there and nothing throws: a mount
    point, a renderer handle, a constructor and a first change detection
    that return. *)
Definition mounts (createComponent : ComponentType -> option JsError)
  (detectChanges : TemplateInstance -> option JsError) (c : DialogRef) : bool :=
  match templateContainer c, templateComponent (dialog_data c) with
  | Some _, Some cls =>
      match createComponent cls, detectChanges (instance_for c cls) with
      | None, None => true
      | _, _ => false
      end
  | _, _ => false
  end.

(** A page with one preview still loading, as concrete input. *)
Definition loading_dialog : DialogRef :=
  fresh_dialog
    {| templateComponent := Some (ComponentClass "app-invoice-print");
       preview_data := JNull;
       preview_options := mergeDefaultOptions None |}.

Definition loading_world : World :=
  with_dialogs (fun _ => [loading_dialog]) initial.

(* ===================================================================== *)
(** ** [ReportPrintComponent]                                             *)
(* ===================================================================== *)

(** An entry of [ReportData.summary.items]; [highlight] is optional. *)
Record SummaryItem : Type := {
  label : string;
  value : JsValue;
  highlight : option bool
}.

Record ReportSummary : Type := {
  summary_title : option string;
  items : list SummaryItem
}.

Module ReportPrintComponent.

(** [item.highlight] as a condition: [undefined] and [false] are falsy. *)
Definition highlighted (item : SummaryItem) : bool :=
  match highlight item with
  | Some b => b
  | None => false
  end.

(** The methods below read [this.data.summary] only; [summary] is that
    field, [None] when the report has none. *)
Definition hasSummary (summary : option ReportSummary) : bool :=
  match summary with
  | Some s => negb (Nat.eqb (length (items s)) 0)
  | None => false
  end.

Definition getHighlightedItems (summary : option ReportSummary)
  : list SummaryItem :=
  if negb (hasSummary summary) then []
  else match summary with
       | Some s => List.filter (fun item => highlighted item) (items s)
       | None => []
       end.

Definition getRegularItems (summary : option ReportSummary)
  : list SummaryItem :=
  if negb (hasSummary summary) then []
  else match summary with
       | Some s => List.filter (fun item => negb (highlighted item)) (items s)
       | None => []
       end.

(** [/[A-Z]/] *)
Definition is_upper (c : Ascii.ascii) : bool :=
  let n := Ascii.nat_of_ascii c in Nat.leb 65 n && Nat.leb n 90.

Definition is_lower (c : Ascii.ascii) : bool :=
  let n := Ascii.nat_of_ascii c in Nat.leb 97 n && Nat.leb n 122.

Definition is_digit (c : Ascii.ascii) : bool :=
  let n := Ascii.nat_of_ascii c in Nat.leb 48 n && Nat.leb n 57.

(** White space and line terminators below 128: tab, line feed, vertical
    tab, form feed, carriage return, space. *)
Definition is_space (c : Ascii.ascii) : bool :=
  let n := Ascii.nat_of_ascii c in
  (Nat.leb 9 n && Nat.leb n 13) || Nat.eqb n 32.

Definition is_line_terminator (c : Ascii.ascii) : bool :=
  let n := Ascii.nat_of_ascii c in Nat.eqb n 10 || Nat.eqb n 13.

(** [toUpperCase] of one character below 128. *)
Definition toUpperCase_char (c : Ascii.ascii) : Ascii.ascii :=
  if is_lower c then Ascii.ascii_of_nat (Ascii.nat_of_ascii c - 32) else c.

(** [.replace(/([A-Z])/g, ' $1')] *)
Fixpoint space_capitals (s : string) : string :=
  match s with
  | EmptyString => EmptyString
  | String c s' =>
      if is_upper c then String Ascii.Space (String c (space_capitals s'))
      else String c (space_capitals s')
  end.

(** [.replace(/^./, str => str.toUpperCase())]: the dot does not match a
    line terminator. *)
Definition capitalize_first (s : string) : string :=
  match s with
  | EmptyString => EmptyString
  | String c s' =>
      if is_line_terminator c then s else String (toUpperCase_char c) s'
  end.

Fixpoint trimStart (s : string) : string :=
  match s with
  | EmptyString => EmptyString
  | String c s' => if is_space c then trimStart s' else s
  end.

Fixpoint trimEnd (s : string) : string :=
  match s with
  | EmptyString => EmptyString
  | String c s' =>
      match trimEnd s' with
      | EmptyString => if is_space c then EmptyString else String c EmptyString
      | rest => String c rest
      end
  end.

(** [.trim()] *)
Definition trim (s : string) : string := trimEnd (trimStart s).

(** [formatHeader(header)], for headers made of characters below 128
    (strings here are sequences of such characters). *)
Definition formatHeader (header : string) : string :=
  trim (capitalize_first (space_capitals header)).

End ReportPrintComponent.

(** Letters and digits, the characters of a field name. *)
Definition is_alnum (c : Ascii.ascii) : bool :=
  ReportPrintComponent.is_upper c || ReportPrintComponent.is_lower c ||
  ReportPrintComponent.is_digit c.

Fixpoint all_chars (P : Ascii.ascii -> bool) (s : string) : bool :=
  match s with
  | EmptyString => true
  | String c s' => P c && all_chars P s'
  end.

(* ===================================================================== *)
(** ** [AppComponent]: the status message                                 *)
(* ===================================================================== *)

Inductive MessageType : Type := success | error_type | info.

Module AppComponent.

(** The fields [setLoading] and [setMessage] write, the due times of the
    timers [setMessage] has pending (each runs [this.message = '']), and
    the clock. *)
Record t : Type := {
  isLoading : bool;
  message : string;
  messageType : MessageType;
  pending : list nat;
  clock : nat
}.

Definition setLoading (msg : string) (a : t) : t :=
  {| isLoading := true; message := msg; messageType := info;
     pending := pending a; clock := clock a |}.

Definition setMessage (msg : string) (type : MessageType) (a : t) : t :=
  {| isLoading := false; message := msg; messageType := type;
     pending := (pending a ++ [clock a + 5000])%list; clock := clock a |}.

(** [ms] milliseconds go by with no call in between: the timers that have
    come due run, each emptying the message. *)
Definition elapse (ms : nat) (a : t) : t :=
  let now' := clock a + ms in
  {| isLoading := isLoading a;
     message := if existsb (fun due => Nat.leb due now') (pending a)
                then EmptyString else message a;
     messageType := messageType a;
     pending := List.filter (fun due => negb (Nat.leb due now')) (pending a);
     clock := now' |}.

End AppComponent.

(* ===================================================================== *)
(** ** Facts about [Map]                                                  *)
(* ===================================================================== *)

Module JsMapFacts.
Section Facts.
Context {V : Type}.
Implicit Types (m : JsMap.t V) (k : string) (v : V).

Lemma get_set_eq m k v : JsMap.get k (JsMap.set k v m) = Some v.
Proof.
  induction m as [|[k' v'] m IH]; simpl.
  - by rewrite String.eqb_refl.
  - destruct (String.eqb k k') eqn:E; simpl.
    + by rewrite String.eqb_refl.
    + by rewrite E.
Qed.

Lemma get_set_ne m k k' v :
  k <> k' -> JsMap.get k' (JsMap.set k v m) = JsMap.get k' m.
Proof.
  intros Hne. induction m as [|[k0 v0] m IH]; simpl.
  - destruct (String.eqb k' k) eqn:E; [|done].
    apply String.eqb_eq in E. congruence.
  - destruct (String.eqb k k0) eqn:E; simpl.
    + apply String.eqb_eq in E. subst k0.
      destruct (String.eqb k' k) eqn:E'; [|done].
      apply String.eqb_eq in E'. congruence.
    + by rewrite IH.
Qed.

Lemma get_None_keys m k : JsMap.get k m = None <-> ~ In k (JsMap.keys m).
Proof.
  induction m as [|[k' v'] m IH]; simpl; [tauto|].
  destruct (String.eqb k k') eqn:E.
  - apply String.eqb_eq in E. split; [done | intros H; exfalso; auto].
  - apply String.eqb_neq in E. rewrite IH. split.
    + intros H [H'|H']; [congruence | auto].
    + intros H H'. auto.
Qed.

Lemma has_get m k : JsMap.has k m = true <-> JsMap.get k m <> None.
Proof. unfold JsMap.has. destruct (JsMap.get k m); split; congruence. Qed.

(** [set] on a key that is present leaves the order of the keys alone. *)
Lemma keys_set_present m k v :
  JsMap.get k m <> None -> JsMap.keys (JsMap.set k v m) = JsMap.keys m.
Proof.
  induction m as [|[k' v'] m IH]; simpl; [done|].
  destruct (String.eqb k k') eqn:E; simpl.
  - apply String.eqb_eq in E. by subst.
  - intros H. f_equal. by apply IH.
Qed.

(** [set] on a new key appends it. *)
Lemma keys_set_fresh m k v :
  JsMap.get k m = None ->
  JsMap.keys (JsMap.set k v m) = (JsMap.keys m ++ [k])%list.
Proof.
  induction m as [|[k' v'] m IH]; simpl; [done|].
  destruct (String.eqb k k') eqn:E; simpl; [done|].
  intros H. f_equal. by apply IH.
Qed.

Lemma wf_empty : JsMap.wf (@JsMap.empty V).
Proof. constructor. Qed.

Lemma wf_set m k v : JsMap.wf m -> JsMap.wf (JsMap.set k v m).
Proof.
  unfold JsMap.wf. intros Hwf.
  destruct (JsMap.get k m) eqn:E.
  - rewrite keys_set_present; [done | congruence].
  - rewrite keys_set_fresh by done.
    apply NoDup_app. split; [done|]. split.
    + intros x Hx Hk. apply list_elem_of_In in Hx.
      apply list_elem_of_singleton in Hk. subst x.
      by apply get_None_keys in E.
    + apply NoDup_singleton.
Qed.

Lemma keys_delete_subset m k x :
  In x (JsMap.keys (JsMap.delete k m)) -> In x (JsMap.keys m).
Proof.
  induction m as [|[k' v'] m IH]; simpl; [done|].
  destruct (String.eqb k k'); simpl; [auto|].
  intros [H|H]; auto.
Qed.

Lemma wf_delete m k : JsMap.wf m -> JsMap.wf (JsMap.delete k m).
Proof.
  unfold JsMap.wf. induction m as [|[k' v'] m IH]; simpl; [done|].
  intros Hwf. apply NoDup_cons in Hwf as [Hnotin Hwf].
  destruct (String.eqb k k'); simpl; [done|].
  apply NoDup_cons. split; [|by apply IH].
  intros Hin. apply Hnotin. apply list_elem_of_In.
  apply list_elem_of_In in Hin. by apply keys_delete_subset in Hin.
Qed.

(** In a [Map] a key that is present is listed once. *)
Lemma keys_count_present m k :
  JsMap.wf m -> JsMap.get k m <> None ->
  count_occ string_dec (JsMap.keys m) k = 1.
Proof.
  intros Hwf Hget.
  apply (proj1 (List.NoDup_count_occ' string_dec (JsMap.keys m))).
  - by apply NoDup_ListNoDup.
  - destruct (in_dec string_dec k (JsMap.keys m)) as [?|Hn]; [done|].
    by apply get_None_keys in Hn.
Qed.

End Facts.
End JsMapFacts.
(* ===================================================================== *)
(** ** Facts about strings and option objects                             *)
(* ===================================================================== *)

Lemma prefix_app (a b : string) : String.prefix a (a ++ b) = true.
Proof.
  induction a as [|c a IH]; simpl.
  - by destruct b.
  - destruct (Ascii.ascii_dec c c); [done | congruence].
Qed.

Lemma app_empty_r (n : string) : n ++ EmptyString = n.
Proof.
  induction n as [|c n IH]; [done|].
  change (String c (n ++ EmptyString) = String c n). by rewrite IH.
Qed.

Lemma app_assoc_string (a b c : string) : (a ++ b) ++ c = a ++ b ++ c.
Proof.
  induction a as [|x a IH]; [done|].
  change (String x ((a ++ b) ++ c) = String x (a ++ b ++ c)). by rewrite IH.
Qed.

Lemma contains_unfold (n h : string) :
  contains n h =
  String.prefix n h ||
  match h with EmptyString => false | String _ h' => contains n h' end.
Proof. by destruct h. Qed.

Lemma contains_here (n b : string) : contains n (n ++ b) = true.
Proof. by rewrite contains_unfold, prefix_app. Qed.

Lemma contains_refl (n : string) : contains n n = true.
Proof. rewrite <- (app_empty_r n) at 2. apply contains_here. Qed.

Lemma contains_skip (a n h : string) :
  contains n h = true -> contains n (a ++ h) = true.
Proof.
  intros H. induction a as [|c a IH]; [done|].
  change (String c a ++ h) with (String c (a ++ h)).
  rewrite contains_unfold, IH. apply orb_true_r.
Qed.

(** Reading a property of [{ ...target, ...src }]: [src]'s if it has one
    (whatever its value), [target]'s otherwise. *)
Lemma spread_lookup (target src : JsObject) (k : string) :
  spread target src !! k =
  match src !! k with
  | Some v => Some v
  | None => target !! k
  end.
Proof.
  unfold spread. rewrite lookup_union.
  destruct (src !! k), (target !! k); done.
Qed.

Lemma lookup_merge (o : JsObject) (k : string) :
  mergeDefaultOptions (Some o) !! k =
  match o !! k with
  | Some v => Some v
  | None => defaults !! k
  end.
Proof.
  unfold mergeDefaultOptions. simpl. rewrite !spread_lookup.
  destruct (o !! k); [done|]. rewrite lookup_empty.
  by destruct (defaults !! k).
Qed.

Lemma merge_undefined : mergeDefaultOptions None = defaults.
Proof.
  unfold mergeDefaultOptions, spread. simpl.
  by rewrite (right_id_L ∅ (∪)), (left_id_L ∅ (∪)).
Qed.

Lemma defaults_documented : defaults = list_to_map documented_defaults.
Proof. vm_cast_no_check (eq_refl defaults). Qed.

Lemma prop_merge (o : JsObject) (k : string) :
  prop (mergeDefaultOptions (Some o)) k =
  match o !! k with
  | Some v => v
  | None => prop defaults k
  end.
Proof. unfold prop. rewrite lookup_merge. by destruct (o !! k). Qed.

(** A [??]-fallback equal to the merged default sees no difference between
    the raw options and the merged ones. *)
Lemma fallback_agrees (v : option JsObject) (k : string) (d : JsValue) :
  prop defaults k = d -> nullish d d = d ->
  nullish (opt_prop v k) d =
  nullish (opt_prop (Some (mergeDefaultOptions v)) k) d.
Proof.
  intros Hd Hn. destruct v as [o|]; simpl.
  - rewrite prop_merge. destruct (o !! k) as [x|] eqn:E; unfold prop at 1;
      rewrite E; simpl; [done|]. by rewrite Hd, Hn.
  - rewrite merge_undefined, Hd. by rewrite Hn.
Qed.
(* ===================================================================== *)
(** ** Registry and lookup (C2, C3, C6)                                   *)
(* ===================================================================== *)

Arguments mergeDefaultOptions : simpl never.

(** Unfolds the plumbing of [Js], the primitives before the combinators
    they are made of. *)
Ltac js_unfold :=
  unfold emit, resolve, PrintPreviewComponent.update in *;
  unfold bind, gets, modify, ret, throw, try_catch in *.

Ltac world_unfold :=
  unfold with_registry, with_active, with_dialogs, with_promises,
    with_timers, with_now, with_trace in *;
  simpl in *.

Lemma run_subscribers_normal (ss : list Subscriber) (w : World) :
  exists w', run_subscribers ss w = (Normal tt, w').
Proof.
  revert w. induction ss as [|[p] ss IH]; intros w; simpl; [by eexists|].
  unfold bind at 1. simpl. apply IH.
Qed.

Lemma DialogRef_close_normal (d : nat) (w : World) :
  exists w', DialogRef_close d w = (Normal tt, w').
Proof.
  unfold DialogRef_close, bind, emit, modify, gets. simpl.
  destruct (dialogs w !! d) as [r|]; [|by eexists].
  destruct (dialog_open r); [|by eexists].
  match goal with |- context [run_subscribers ?ss ?w0] =>
    destruct (run_subscribers_normal ss w0) as [w' ->] end.
  by eexists.
Qed.

Lemma preview_unknown_run (w : World) (config : PrintConfig) :
  JsMap.get (templateKey config) (templateRegistry w) = None ->
  PrintService.preview config w =
  (Throw (Error ("Print template '" ++ templateKey config ++
                 "' not found. " ++ "Available templates: " ++
                 or_string (join ", " (JsMap.keys (templateRegistry w)))
                   "none")), w).
Proof.
  intros E.
  unfold PrintService.preview, PrintService.getTemplate,
    PrintService.getRegisteredTemplates. js_unfold.
  by rewrite E.
Qed.

(** C2. [preview] with a key that has no descriptor throws an error whose
    message names the requested key and the keys registered at that
    moment, joined by commas ("none" when that listing is empty, as on an
    empty registry), and leaves the state as it was; with a registered key
    it returns its promise and throws nothing. *)
Theorem preview_lookup (w : World) (config : PrintConfig) :
  match JsMap.get (templateKey config) (templateRegistry w) with
  | None =>
      let listing :=
        or_string (join ", " (JsMap.keys (templateRegistry w))) "none" in
      let msg := "Print template '" ++ templateKey config ++
                 "' not found. " ++ "Available templates: " ++ listing in
      PrintService.preview config w = (Throw (Error msg), w) /\
      contains (templateKey config) msg = true /\
      contains listing msg = true /\
      (templateRegistry w = JsMap.empty -> listing = "none")
  | Some _ =>
      exists p w', PrintService.preview config w = (Normal p, w')
  end.
Proof.
  destruct (JsMap.get (templateKey config) (templateRegistry w)) as [t|] eqn:E.
  - unfold PrintService.preview, PrintService.getTemplate, bind, gets.
    rewrite E. simpl.
    destruct (activeDialogRef w) as [d|].
    + destruct (DialogRef_close_normal d w) as [w' ->]. simpl. eauto.
    + simpl. eauto.
  - cbv zeta. repeat split.
    + by apply preview_unknown_run.
    + apply contains_skip, contains_here.
    + do 4 apply contains_skip. apply contains_refl.
    + by intros ->.
Qed.

Lemma preview_lookup_witness :
  PrintService.preview (config_for "missing") initial =
    (Throw (Error
       "Print template 'missing' not found. Available templates: none"),
     initial) /\
  PrintService.preview (config_for "missing") registered =
    (Throw (Error
       "Print template 'missing' not found. Available templates: invoice, report, table"),
     registered) /\
  exists p w', PrintService.preview (config_for "table") registered = (Normal p, w').
Proof.
  split; [|split].
  - exact (proj1 (preview_lookup initial (config_for "missing"))).
  - exact (proj1 (preview_lookup registered (config_for "missing"))).
  - exact (preview_lookup registered (config_for "table")).
Defined.

Lemma registerTemplate_run (k : string) (r : option ComponentType)
  (d : option string) (w : World) :
  PrintService.registerTemplate k r d w =
  (Normal tt, registerTemplate_result k r d w).
Proof.
  unfold PrintService.registerTemplate, registerTemplate_result.
  js_unfold. unfold with_trace, with_registry.
  destruct (JsMap.has k (templateRegistry w)); simpl; [|done].
  by rewrite <- app_assoc.
Qed.

(** The registry keeps the [Map] invariant under every method that
    writes it. *)
Lemma registry_wf_preserved (w : World) :
  JsMap.wf (templateRegistry w) ->
  (forall k r d,
     JsMap.wf (templateRegistry (PrintService.registerTemplate k r d w).2)) /\
  (forall k,
     JsMap.wf (templateRegistry (PrintService.unregisterTemplate k w).2)) /\
  JsMap.wf (templateRegistry (PrintService.clearAllTemplates w).2).
Proof.
  intros Hwf. repeat split.
  - intros k r d. rewrite registerTemplate_run. simpl.
    by apply JsMapFacts.wf_set.
  - intros k. simpl. by apply JsMapFacts.wf_delete.
  - apply JsMapFacts.wf_empty.
Qed.

(** C3. Registering a key twice never throws; afterwards the key resolves
    to the descriptor of the second registration, it is listed exactly
    once, and all the second registration adds to the outside world is
    the warning followed by the usual log line. *)
Theorem register_twice_last_wins (w : World) (k : string)
  (r1 r2 : option ComponentType) (d1 d2 : option string) :
  JsMap.wf (templateRegistry w) ->
  exists w1 w2 ks,
    PrintService.registerTemplate k r1 d1 w = (Normal tt, w1) /\
    PrintService.registerTemplate k r2 d2 w1 = (Normal tt, w2) /\
    PrintService.getTemplate k w2 =
      (Normal (Some {| key := k; component := r2; description := d2 |}), w2) /\
    PrintService.getRegisteredTemplates w2 = (Normal ks, w2) /\
    count_occ string_dec ks k = 1 /\
    emitted w1 w2 =
      [ ConsoleWarn ("Print template with key '" ++ k ++
                     "' is already registered. Overwriting...");
        ConsoleLog ("Print template '" ++ k ++ "' registered successfully") ].
Proof.
  intros Hwf.
  exists (registerTemplate_result k r1 d1 w),
    (registerTemplate_result k r2 d2 (registerTemplate_result k r1 d1 w)),
    (JsMap.keys (templateRegistry
       (registerTemplate_result k r2 d2 (registerTemplate_result k r1 d1 w)))).
  split; [apply registerTemplate_run|].
  split; [apply registerTemplate_run|].
  unfold PrintService.getTemplate, PrintService.getRegisteredTemplates, gets.
  simpl. rewrite JsMapFacts.get_set_eq.
  split; [done|]. split; [done|]. split.
  - apply JsMapFacts.keys_count_present.
    + by do 2 apply JsMapFacts.wf_set.
    + by rewrite JsMapFacts.get_set_eq.
  - unfold emitted. simpl.
    assert (JsMap.has k (JsMap.set k
              {| key := k; component := r1; description := d1 |}
              (templateRegistry w)) = true) as ->.
    { apply JsMapFacts.has_get. by rewrite JsMapFacts.get_set_eq. }
    by rewrite drop_app_length.
Qed.

Lemma register_twice_last_wins_witness :
  JsMap.wf (templateRegistry registered) /\
  exists w1 w2 ks,
    PrintService.registerTemplate "invoice"
      (Some (ComponentClass "app-invoice-print")) None registered
      = (Normal tt, w1) /\
    PrintService.registerTemplate "invoice"
      (Some (ComponentClass "app-invoice-v2")) None w1 = (Normal tt, w2) /\
    PrintService.getTemplate "invoice" w2 =
      (Normal (Some {| key := "invoice";
                       component := Some (ComponentClass "app-invoice-v2");
                       description := None |}), w2) /\
    PrintService.getRegisteredTemplates w2 = (Normal ks, w2) /\
    count_occ string_dec ks "invoice" = 1 /\
    emitted w1 w2 =
      [ ConsoleWarn ("Print template with key '" ++ "invoice" ++
                     "' is already registered. Overwriting...");
        ConsoleLog ("Print template '" ++ "invoice" ++
                    "' registered successfully") ].
Proof.
  assert (JsMap.wf (templateRegistry registered)) as Hwf.
  { apply (bool_decide_unpack _). by vm_compute. }
  split; [exact Hwf|].
  exact (register_twice_last_wins registered "invoice"
           (Some (ComponentClass "app-invoice-print"))
           (Some (ComponentClass "app-invoice-v2")) None None Hwf).
Defined.

(** C6 (as stated, refuted). With "invoice", "report" and "table"
    registered, the error of [printDirect] for the key "missing" does not
    mention the registered keys. *)
Lemma printDirect_lists_keys_fails :
  ~ printDirect_lists_keys registered (config_for "missing").
Proof.
  intros (msg & Hthrow & _ & Hlist).
  vm_compute in Hthrow. injection Hthrow as <-.
  vm_compute in Hlist. discriminate.
Qed.

(** C6 (amended). [printDirect] with a key that has no descriptor throws
    an error naming the requested key only: its message is
    [Print template 'k' not found], and [preview]'s message for the same
    key is that text followed by the listing of the registered keys. *)
Theorem printDirect_unknown_key_error (w : World) (config : PrintConfig) :
  JsMap.get (templateKey config) (templateRegistry w) = None ->
  let msg := "Print template '" ++ templateKey config ++ "' not found" in
  PrintService.printDirect config w = (Throw (Error msg), w) /\
  contains (templateKey config) msg = true /\
  PrintService.preview config w =
    (Throw (Error (msg ++ ". Available templates: " ++
                   or_string (join ", " (JsMap.keys (templateRegistry w)))
                     "none")), w).
Proof.
  intros E. cbv zeta. repeat split.
  - unfold PrintService.printDirect, PrintService.getTemplate. js_unfold.
    by rewrite E.
  - apply contains_skip, contains_here.
  - rewrite (preview_unknown_run w config E). do 3 f_equal.
    by rewrite !app_assoc_string.
Qed.

Lemma printDirect_unknown_key_error_witness :
  JsMap.get "missing" (templateRegistry registered) = None /\
  PrintService.printDirect (config_for "missing") registered =
    (Throw (Error "Print template 'missing' not found"), registered).
Proof.
  split; [reflexivity|].
  exact (proj1 (printDirect_unknown_key_error registered
                  (config_for "missing") eq_refl)).
Defined.

(* ===================================================================== *)
(** ** Option merging (C4, C5, C10)                                       *)
(* ===================================================================== *)

(** C4. The merge is shallow: a key the caller's object has keeps the
    caller's value, any other key reads as in the default table; so
    [{pageSize: 'Legal'}] gives pageSize 'Legal' and orientation
    'portrait', and with no options the result is the documented table. *)
Theorem merge_is_shallow_over_defaults :
  (forall (o : JsObject) (k : string),
     mergeDefaultOptions (Some o) !! k =
     match o !! k with
     | Some v => Some v
     | None => (list_to_map documented_defaults : JsObject) !! k
     end) /\
  (let merged := mergeDefaultOptions (Some (literal [("pageSize", JStr "Legal")])) in
   prop merged "pageSize" = JStr "Legal" /\
   prop merged "orientation" = JStr "portrait") /\
  mergeDefaultOptions None = list_to_map documented_defaults /\
  map (fun k => (k, prop (mergeDefaultOptions None) k))
      [ "orientation"; "pageSize"; "showHeader"; "showFooter";
        "showPageNumbers"; "title"; "rtl"; "copies" ]
  = [ ("orientation", JStr "portrait"); ("pageSize", JStr "A4");
      ("showHeader", JBool true); ("showFooter", JBool true);
      ("showPageNumbers", JBool false); ("title", JStr "Document");
      ("rtl", JBool false); ("copies", JNum 1) ].
Proof.
  split; [|split; [|split]].
  - intros o k. by rewrite lookup_merge, defaults_documented.
  - by vm_compute.
  - by rewrite merge_undefined, defaults_documented.
  - by vm_compute.
Qed.

(** C5 (the code at the failing input). An options object whose [title]
    is present and [undefined] comes out of the merge with [title]
    undefined: the merged options are not fully populated. *)
Theorem merge_keeps_explicit_undefined :
  let merged := mergeDefaultOptions (Some (literal [("title", JUndefined)])) in
  prop merged "title" = JUndefined /\
  fully_populated merged = false.
Proof. by vm_compute. Qed.

(** The same input seen from the preview: its title bar falls back to
    'Print Preview', where the default 'Document' shows for a caller who
    left [title] out. *)
Lemma getTitle_explicit_undefined :
  PrintPreviewComponent.getTitle
    (fresh_dialog
       {| templateComponent := None; preview_data := JNull;
          preview_options :=
            mergeDefaultOptions (Some (literal [("title", JUndefined)])) |})
    = JStr "Print Preview" /\
  PrintPreviewComponent.getTitle
    (fresh_dialog
       {| templateComponent := None; preview_data := JNull;
          preview_options := mergeDefaultOptions (Some (literal [])) |})
    = JStr "Document".
Proof. split; vm_compute; reflexivity. Qed.

(** What does hold: the merged options are fully populated whenever the
    caller's object holds no defaulted field set to [undefined]. *)
Lemma merge_fully_populated (o : option JsObject) :
  (forall k ob, o = Some ob -> In k defaulted_fields ->
                ob !! k <> Some JUndefined) ->
  fully_populated (mergeDefaultOptions o) = true.
Proof.
  intros H. unfold fully_populated. apply forallb_forall. intros k Hk.
  destruct o as [ob|].
  - rewrite prop_merge. specialize (H k ob eq_refl Hk).
    destruct (ob !! k) as [[]|] eqn:E; try done.
    simpl in Hk. unfold prop.
    repeat (destruct Hk as [<-|Hk]; [by vm_compute|]). done.
  - rewrite merge_undefined. simpl in Hk. unfold prop.
    repeat (destruct Hk as [<-|Hk]; [by vm_compute|]). done.
Qed.

(** C10. Each computed field of the base template reads the same from the
    raw options as from the merged ones. *)
Theorem template_fallbacks_agree_with_merge (v : option JsObject) :
  let merged := Some (mergeDefaultOptions v) in
  BasePrintTemplateComponent.showHeader v =
    BasePrintTemplateComponent.showHeader merged /\
  BasePrintTemplateComponent.showFooter v =
    BasePrintTemplateComponent.showFooter merged /\
  BasePrintTemplateComponent.pageSize v =
    BasePrintTemplateComponent.pageSize merged /\
  BasePrintTemplateComponent.orientation v =
    BasePrintTemplateComponent.orientation merged /\
  BasePrintTemplateComponent.isRtl v =
    BasePrintTemplateComponent.isRtl merged /\
  BasePrintTemplateComponent.title v =
    BasePrintTemplateComponent.title merged /\
  BasePrintTemplateComponent.showPageNumbers v =
    BasePrintTemplateComponent.showPageNumbers merged.
Proof.
  cbv zeta.
  repeat split; apply fallback_agrees; by vm_compute.
Qed.

(* ===================================================================== *)
(** ** The preview lifecycle (C1, C7, C8, C9)                             *)
(* ===================================================================== *)

Lemma lookup_snoc {A} (l : list A) (x : A) : (l ++ [x])%list !! length l = Some x.
Proof. by apply list_lookup_middle. Qed.

Lemma alter_snoc {A} (f : A -> A) (l : list A) (x : A) :
  alter f (length l) (l ++ [x])%list = (l ++ [f x])%list.
Proof.
  rewrite <- (Nat.add_0_r (length l)) at 1. by rewrite alter_app_r.
Qed.

(** Subscribers touch the active reference and the promises only. *)
Lemma run_subscribers_frame (ss : list Subscriber) (w : World) :
  exists a ps,
    run_subscribers ss w =
      (Normal tt, with_promises (fun _ => ps) (with_active a w)) /\
    length ps = length (promises w) /\
    (ss = [] -> a = activeDialogRef w /\ ps = promises w) /\
    (ss <> [] -> a = None).
Proof.
  revert w. induction ss as [|[p] ss IH]; intros w.
  - exists (activeDialogRef w), (promises w). by destruct w.
  - simpl. js_unfold. simpl.
    match goal with |- context [run_subscribers ss ?w0] =>
      destruct (IH w0) as (a & ps & -> & Hlen & Hnil & Hcons) end.
    simpl in *. exists a, ps. split; [done|]. split.
    + by rewrite Hlen, length_alter.
    + split; [done|]. intros _. destruct ss as [|s ss'].
      * by destruct (Hnil eq_refl) as [-> _].
      * by apply Hcons.
Qed.

(** [close()] always returns; it records the call and leaves registry,
    timers and clock alone. *)
Lemma DialogRef_close_frame (d : nat) (w : World) :
  exists w',
    DialogRef_close d w = (Normal tt, w') /\
    templateRegistry w' = templateRegistry w /\
    trace w' = (trace w ++ [DialogClose d])%list /\
    timers w' = timers w /\ now w' = now w /\
    length (dialogs w') = length (dialogs w) /\
    length (promises w') = length (promises w) /\
    (activeDialogRef w = None -> activeDialogRef w' = None).
Proof.
  unfold DialogRef_close. js_unfold. simpl.
  destruct (dialogs w !! d) as [r|]; [|by eexists].
  destruct (dialog_open r); [|by eexists].
  match goal with |- context [run_subscribers ?ss ?w0] =>
    destruct (run_subscribers_frame ss w0) as (a & ps & -> & Hlen & Hnil & Hcons) end.
  simpl in *. eexists. split; [done|]. simpl.
  rewrite length_alter. repeat split; try done.
  intros Hnone. destruct (closed r);
    [by destruct (Hnil eq_refl) as [-> _] | by apply Hcons].
Qed.

Lemma close_active_frame (w : World) :
  exists w0,
    close_active w = (Normal tt, w0) /\
    templateRegistry w0 = templateRegistry w /\
    trace w0 =
      (trace w ++ match activeDialogRef w with
                  | Some d => [DialogClose d]
                  | None => []
                  end)%list.
Proof.
  unfold close_active. js_unfold.
  destruct (activeDialogRef w) as [d|].
  - destruct (DialogRef_close_frame d w) as (w' & -> & Hreg & Htr & _).
    by exists w'.
  - exists w. by rewrite app_nil_r.
Qed.

(** [preview] with a registered key: close what is active, then open. *)
Lemma preview_registered_run (w w0 : World) (config : PrintConfig)
  (t : PrintTemplate) :
  JsMap.get (templateKey config) (templateRegistry w) = Some t ->
  close_active w = (Normal tt, w0) ->
  PrintService.preview config w =
  (Normal (length (promises w0)), preview_opened (previewData_of t config) w0).
Proof.
  intros E Hclose.
  unfold PrintService.preview, PrintService.getTemplate.
  unfold close_active in Hclose. js_unfold. rewrite E.
  destruct (activeDialogRef w) as [d|];
    [rewrite Hclose | injection Hclose as <-];
    unfold Dialog_open, new_promise, subscribe_closed; js_unfold;
    world_unfold; rewrite alter_snoc; reflexivity.
Qed.

Lemma close_last (w : World) (ds : list DialogRef) (r : DialogRef)
  (ps : list PromiseState) :
  dialogs w = (ds ++ [r])%list ->
  dialog_open r = true ->
  closed r = [OnClosed (length ps)] ->
  promises w = (ps ++ [Pending])%list ->
  DialogRef_close (length ds) w = (Normal tt, closed_last w ds r ps).
Proof.
  intros Hds Hopen Hsubs Hps.
  unfold DialogRef_close, closed_last. js_unfold. world_unfold.
  rewrite Hds, lookup_snoc, Hopen, Hsubs. simpl. js_unfold. world_unfold.
  by rewrite Hps, !alter_snoc.
Qed.

(** C8. After [preview(A)], an immediate [preview(B)] calls [close()] on
    A's ref once, then opens B's; nothing else happens in between, and the
    service ends up holding B's ref, which is not A's. *)
Theorem successive_previews_track_latest (w : World) (A B : PrintConfig)
  (tA tB : PrintTemplate) :
  JsMap.get (templateKey A) (templateRegistry w) = Some tA ->
  JsMap.get (templateKey B) (templateRegistry w) = Some tB ->
  exists pA w1 dA pB w2 dB,
    PrintService.preview A w = (Normal pA, w1) /\
    activeDialogRef w1 = Some dA /\
    PrintService.preview B w1 = (Normal pB, w2) /\
    activeDialogRef w2 = Some dB /\
    dB <> dA /\
    emitted w1 w2 = [DialogClose dA; DialogOpen dB] /\
    closes_of dA (emitted w1 w2) = 1 /\
    (exists rA rB, dialogs w2 !! dA = Some rA /\ dialog_open rA = false /\
                   dialogs w2 !! dB = Some rB /\ dialog_open rB = true).
Proof.
  intros HA HB.
  destruct (close_active_frame w) as (w0 & Hclose & Hreg & _).
  pose proof (preview_registered_run w w0 A tA HA Hclose) as HpA.
  set (pdA := previewData_of tA A) in *.
  set (w1 := preview_opened pdA w0) in *.
  set (rA := add_subscriber (OnClosed (length (promises w0))) (fresh_dialog pdA)).
  assert (close_active w1 =
          (Normal tt, closed_last w1 (dialogs w0) rA (promises w0))) as Hclose1.
  { unfold close_active. js_unfold. simpl. by apply close_last. }
  assert (JsMap.get (templateKey B) (templateRegistry w1) = Some tB) as HB1.
  { simpl. by rewrite Hreg. }
  pose proof (preview_registered_run w1 _ B tB HB1 Hclose1) as HpB.
  eexists _, w1, (length (dialogs w0)), _, _, (S (length (dialogs w0))).
  split; [exact HpA|]. split; [done|]. split; [exact HpB|].
  split. { simpl. rewrite length_app. simpl. f_equal. lia. }
  split; [lia|].
  assert (emitted w1
            (preview_opened (previewData_of tB B)
               (closed_last w1 (dialogs w0) rA (promises w0))) =
          [DialogClose (length (dialogs w0));
           DialogOpen (S (length (dialogs w0)))]) as Hem.
  { unfold emitted. simpl. rewrite (length_app (dialogs w0)). simpl.
    rewrite Nat.add_1_r, <- (app_assoc _ [_] [_]).
    by rewrite drop_app_length. }
  split; [exact Hem|]. split.
  { rewrite Hem. unfold closes_of. simpl. by rewrite Nat.eqb_refl. }
  eexists (mark_closed rA), _. simpl. split.
  { rewrite lookup_app_l by (rewrite length_app; simpl; lia).
    apply lookup_snoc. }
  split; [done|]. split.
  { assert (S (length (dialogs w0)) =
            length (dialogs w0 ++ [mark_closed rA])%list) as ->
      by (rewrite length_app; simpl; lia).
    apply lookup_snoc. }
  done.
Qed.

Lemma successive_previews_track_latest_witness :
  exists pA w1 dA pB w2 dB,
    PrintService.preview (config_for "invoice") registered = (Normal pA, w1) /\
    activeDialogRef w1 = Some dA /\
    PrintService.preview (config_for "table") w1 = (Normal pB, w2) /\
    activeDialogRef w2 = Some dB /\
    dB <> dA /\
    emitted w1 w2 = [DialogClose dA; DialogOpen dB] /\
    closes_of dA (emitted w1 w2) = 1 /\
    (exists rA rB, dialogs w2 !! dA = Some rA /\ dialog_open rA = false /\
                   dialogs w2 !! dB = Some rB /\ dialog_open rB = true).
Proof.
  exact (successive_previews_track_latest registered
           (config_for "invoice") (config_for "table") _ _ eq_refl eq_refl).
Defined.

(** C9. [closePreview] never throws and leaves no active session; with
    none active it changes nothing, so a second call in a row is a
    no-op. *)
Theorem closePreview_idempotent (w : World) :
  (activeDialogRef w = None ->
   PrintService.closePreview w = (Normal tt, w)) /\
  exists w',
    PrintService.closePreview w = (Normal tt, w') /\
    activeDialogRef w' = None /\
    PrintService.closePreview w' = (Normal tt, w').
Proof.
  split.
  - intros H. unfold PrintService.closePreview. js_unfold. by rewrite H.
  - unfold PrintService.closePreview. js_unfold.
    destruct (activeDialogRef w) as [d|] eqn:E.
    + destruct (DialogRef_close_frame d w) as (w' & -> & _).
      by exists (with_active None w').
    + exists w. by rewrite E.
Qed.

Lemma closePreview_idempotent_witness :
  PrintService.closePreview registered = (Normal tt, registered) /\
  exists w',
    PrintService.closePreview
      (PrintService.preview (config_for "report") registered).2
      = (Normal tt, w') /\
    activeDialogRef w' = None /\
    PrintService.closePreview w' = (Normal tt, w').
Proof.
  split.
  - exact (proj1 (closePreview_idempotent registered) eq_refl).
  - exact (proj2 (closePreview_idempotent
                    (PrintService.preview (config_for "report") registered).2)).
Defined.

(** C7 (as stated, refuted). From the initial state, where no session is
    active, [print()] followed by one turn of the timers calls
    [window.print()]. *)
Lemma print_idle_without_session_fails :
  ~ print_idle_without_session initial.
Proof.
  intros H. specialize (H eq_refl 1 _ eq_refl).
  apply H. vm_compute. by left.
Qed.

(** C7 (amended). [print()] does not look at the active session: in every
    state it returns normally, touches neither registry nor active
    reference, and leaves one more timer, due 250 ms later, whose callback
    is a call of [window.print()]. *)
Theorem print_schedules_native_print (w : World) :
  PrintService.print w =
    (Normal tt,
     with_timers (fun ts => (ts ++ [(now w + 250, TaskWindowPrint)])%list) w) /\
  forall cc dc,
    (forall w',
       PrintPreviewComponent.run_task cc dc TaskWindowPrint w' =
         (Normal tt, with_trace (fun t => (t ++ [WindowPrint])%list) w')) /\
    (timers w = [] ->
     exists w',
       (PrintService.print ;;; PrintPreviewComponent.ticks cc dc 1) w
         = (Normal tt, w') /\
       emitted w w' = [WindowPrint] /\
       activeDialogRef w' = activeDialogRef w /\
       templateRegistry w' = templateRegistry w).
Proof.
  split; [done|]. intros cc dc. split; [done|]. intros Hts.
  unfold PrintService.print, setTimeout, PrintPreviewComponent.ticks,
    PrintPreviewComponent.tick, emitted.
  js_unfold. world_unfold. rewrite Hts. simpl.
  rewrite Nat.eqb_refl. simpl. js_unfold. world_unfold.
  eexists. split; [reflexivity|]. simpl.
  by rewrite drop_app_length.
Qed.

Lemma print_schedules_native_print_witness :
  activeDialogRef initial = None /\
  exists w',
    (PrintService.print ;;;
     PrintPreviewComponent.ticks no_rendering_error no_detection_error 1)
      initial = (Normal tt, w') /\
    emitted initial w' = [WindowPrint] /\
    activeDialogRef w' = activeDialogRef initial /\
    templateRegistry w' = templateRegistry initial.
Proof.
  split; [reflexivity|].
  exact (proj2 (proj2 (print_schedules_native_print initial)
                  no_rendering_error no_detection_error) eq_refl).
Defined.

(** Whatever the template does, [loadTemplate] returns and the preview is
    no longer loading. *)
Lemma loadTemplate_leaves_loading
  (cc : ComponentType -> option JsError)
  (dc : TemplateInstance -> option JsError)
  (d : nat) (w : World) (c : DialogRef) :
  dialogs w !! d = Some c ->
  exists w' c',
    PrintPreviewComponent.loadTemplate cc dc d w = (Normal tt, w') /\
    dialogs w' !! d = Some c' /\
    isLoading c' = false /\
    promises w' = promises w /\
    activeDialogRef w' = activeDialogRef w.
Proof.
  intros Hc.
  unfold PrintPreviewComponent.loadTemplate,
    PrintPreviewComponent.loadTemplate_try, PrintPreviewComponent.may_throw.
  js_unfold. rewrite Hc. world_unfold.
  destruct (templateContainer c) as [vc|];
    [destruct (templateComponent (dialog_data c)) as [cls|];
     [destruct (cc cls) as [e1|]; simpl;
      [|match goal with |- context [dc ?i] => destruct (dc i) as [e2|] end]|]|];
    simpl; eexists _, _; (split; [reflexivity|]); simpl;
    rewrite ?list_lookup_alter_eq, ?Hc; simpl; done.
Qed.

(** C1 (as stated, refuted). With the built-in templates registered and no
    mount point, the promise of [preview] for "invoice" is not rejected
    once [loadTemplate] has failed. *)
Lemma mount_failure_rejects_fails :
  ~ mount_failure_rejects registered (config_for "invoice") None.
Proof.
  intros H.
  destruct (H 0 (PrintService.preview (config_for "invoice") registered).2 0
              ((PrintPreviewComponent.resolveViewChild 0 None ;;;
                PrintPreviewComponent.loadTemplate
                  no_rendering_error no_detection_error 0)
                 (PrintService.preview (config_for "invoice") registered).2).2)
    as [_ [e He]]; [by vm_compute..|].
  vm_compute in He. discriminate.
Qed.

(** C1 (amended). When the lookup succeeds and either the mount point is
    missing or the renderer handle is null, [loadTemplate] ends with the
    preview in its failed state (not loading, error message set), while the
    promise of [preview] is not rejected: it is still pending, and closing
    the dialog fulfils it. *)
Theorem mount_failure_shows_error
  (cc : ComponentType -> option JsError)
  (dc : TemplateInstance -> option JsError)
  (w : World) (config : PrintConfig) (t : PrintTemplate)
  (v : option ViewContainerRef) :
  JsMap.get (templateKey config) (templateRegistry w) = Some t ->
  v = None \/ component t = None ->
  exists p w1 d w2 c w3,
    PrintService.preview config w = (Normal p, w1) /\
    activeDialogRef w1 = Some d /\
    (PrintPreviewComponent.resolveViewChild d v ;;;
     PrintPreviewComponent.loadTemplate cc dc d) w1 = (Normal tt, w2) /\
    dialogs w2 !! d = Some c /\
    PrintPreviewComponent.state c = Failed /\
    isLoading c = false /\
    error c = Some "Failed to load print template. Please try again." /\
    promises w2 !! p = Some Pending /\
    PrintPreviewComponent.onClose d w2 = (Normal tt, w3) /\
    promises w3 !! p = Some Fulfilled.
Proof.
  intros Hget Hfail.
  destruct (close_active_frame w) as (w0 & Hclose & _).
  pose proof (preview_registered_run w w0 config t Hget Hclose) as Hp.
  set (pd := previewData_of t config) in *.
  exists (length (promises w0)), (preview_opened pd w0), (length (dialogs w0)).
  assert (exists w2 r,
    (PrintPreviewComponent.resolveViewChild (length (dialogs w0)) v ;;;
     PrintPreviewComponent.loadTemplate cc dc (length (dialogs w0)))
      (preview_opened pd w0) = (Normal tt, w2) /\
    dialogs w2 = (dialogs w0 ++ [r])%list /\
    promises w2 = (promises w0 ++ [Pending])%list /\
    dialog_open r = true /\
    closed r = [OnClosed (length (promises w0))] /\
    isLoading r = false /\
    error r = Some "Failed to load print template. Please try again.")
    as (w2 & r & Hrun & Hds & Hps & Hopen & Hsubs & Hload & Herr).
  { unfold PrintPreviewComponent.resolveViewChild,
      PrintPreviewComponent.loadTemplate,
      PrintPreviewComponent.loadTemplate_try.
    js_unfold. world_unfold. rewrite alter_snoc, lookup_snoc. simpl.
    destruct Hfail as [-> | Hnull].
    - simpl. rewrite !alter_snoc. by eexists _, _.
    - destruct v as [vc|]; simpl.
      + rewrite Hnull. simpl. rewrite !alter_snoc. by eexists _, _.
      + rewrite !alter_snoc. by eexists _, _. }
  exists w2, r, (closed_last w2 (dialogs w0) r (promises w0)).
  split; [exact Hp|]. split; [done|]. split; [exact Hrun|].
  split; [rewrite Hds; apply lookup_snoc|].
  split; [unfold PrintPreviewComponent.state, PrintPreviewComponent.isReady;
          by rewrite Hload, Herr|].
  split; [done|]. split; [done|].
  split; [rewrite Hps; apply lookup_snoc|].
  split; [by apply close_last|].
  simpl. apply lookup_snoc.
Qed.

Lemma mount_failure_shows_error_witness :
  exists p w1 d w2 c w3,
    PrintService.preview (config_for "invoice") registered = (Normal p, w1) /\
    activeDialogRef w1 = Some d /\
    (PrintPreviewComponent.resolveViewChild d None ;;;
     PrintPreviewComponent.loadTemplate
       no_rendering_error no_detection_error d) w1 = (Normal tt, w2) /\
    dialogs w2 !! d = Some c /\
    PrintPreviewComponent.state c = Failed /\
    isLoading c = false /\
    error c = Some "Failed to load print template. Please try again." /\
    promises w2 !! p = Some Pending /\
    PrintPreviewComponent.onClose d w2 = (Normal tt, w3) /\
    promises w3 !! p = Some Fulfilled.
Proof.
  exact (mount_failure_shows_error no_rendering_error no_detection_error
           registered (config_for "invoice") _ None eq_refl
           (or_introl eq_refl)).
Defined.

(* ===================================================================== *)
(** ** Invariants of the page                                             *)
(* ===================================================================== *)

Lemma same_sessions_lookup (w w' : World) (d : nat) (r' : DialogRef) :
  same_sessions w w' ->
  dialogs w' !! d = Some r' ->
  exists r, dialogs w !! d = Some r /\ session_of r = session_of r'.
Proof.
  intros (_ & _ & _ & Hs) Hd.
  assert ((session_of <$> dialogs w) !! d = Some (session_of r')) as H.
  { rewrite <- Hs, list_lookup_fmap, Hd. done. }
  rewrite list_lookup_fmap in H.
  destruct (dialogs w !! d) as [r|]; [|done].
  exists r. split; [done|]. simpl in H. congruence.
Qed.

Lemma same_sessions_refl (w : World) : same_sessions w w.
Proof. by repeat split. Qed.

Lemma same_sessions_sym (w w' : World) :
  same_sessions w w' -> same_sessions w' w.
Proof. intros (? & ? & ? & ?). by repeat split. Qed.

Lemma same_sessions_trans (w1 w2 w3 : World) :
  same_sessions w1 w2 -> same_sessions w2 w3 -> same_sessions w1 w3.
Proof.
  intros (? & ? & ? & ?) (? & ? & ? & ?). repeat split; congruence.
Qed.

(** The invariant reads only the registry, the active reference, the
    promises and, of each ref, whether it is open and who subscribed. *)
Lemma Inv_same (w w' : World) : same_sessions w w' -> Inv w -> Inv w'.
Proof.
  intros Hs [Hwf Hcons Hopen Hact Hprom].
  pose proof Hs as (Hreg & Ha & Hp & _).
  split.
  - by rewrite Hreg.
  - by rewrite Hreg.
  - intros d r' Hd Ho.
    destruct (same_sessions_lookup w w' d r' Hs Hd) as (r & Hr & Hv).
    injection Hv as Hvo Hvc.
    destruct (Hopen d r Hr) as (Hda & p & Hc & Hpp); [congruence|].
    split; [congruence|]. exists p. split; congruence.
  - intros d Hd. rewrite Ha in Hd.
    destruct (Hact d Hd) as (r & Hr & Ho).
    destruct (same_sessions_lookup w' w d r (same_sessions_sym _ _ Hs) Hr)
      as (r' & Hr' & Hv).
    injection Hv as Hvo Hvc. exists r'. split; congruence.
  - intros p s Hps. rewrite Hp in Hps.
    destruct (Hprom p s Hps) as [?|(-> & d & r & Hr & Ho & Hc)]; [by left|].
    right. split; [done|].
    destruct (same_sessions_lookup w' w d r (same_sessions_sym _ _ Hs) Hr)
      as (r' & Hr' & Hv).
    injection Hv as Hvo Hvc. exists d, r'. repeat split; congruence.
Qed.

Lemma fmap_alter_same {A B} (g : A -> B) (f : A -> A) (i : nat) (l : list A) :
  (forall x, g (f x) = g x) -> g <$> alter f i l = g <$> l.
Proof.
  intros H. revert i. induction l as [|x l IH]; intros [|i]; simpl; [done..| |].
  - by rewrite H.
  - f_equal. apply IH.
Qed.

(** Updating the component living in a ref does not touch the session. *)
Lemma update_same_sessions (d : nat) (f : DialogRef -> DialogRef) (w : World) :
  (forall r, session_of (f r) = session_of r) ->
  same_sessions w (PrintPreviewComponent.update d f w).2.
Proof.
  intros H. repeat split. simpl. by apply fmap_alter_same.
Qed.

Lemma emit_same_sessions (e : Event) (w : World) :
  same_sessions w (emit e w).2.
Proof. by repeat split. Qed.

Lemma setTimeout_same_sessions (k : Task) (ms : nat) (w : World) :
  same_sessions w (setTimeout k ms w).2.
Proof. by repeat split. Qed.

Lemma loadTemplate_same_sessions
  (cc : ComponentType -> option JsError)
  (dc : TemplateInstance -> option JsError) (d : nat) (w : World) :
  same_sessions w (PrintPreviewComponent.loadTemplate cc dc d w).2.
Proof.
  unfold PrintPreviewComponent.loadTemplate,
    PrintPreviewComponent.loadTemplate_try, PrintPreviewComponent.may_throw.
  js_unfold. destruct (dialogs w !! d) as [c|]; [|apply same_sessions_refl].
  world_unfold.
  destruct (templateContainer c) as [vc|];
    [destruct (templateComponent (dialog_data c)) as [cls|];
     [destruct (cc cls) as [e1|]; simpl;
      [|match goal with |- context [dc ?i] => destruct (dc i) as [e2|] end]|]|];
    simpl; repeat split; simpl;
    rewrite !fmap_alter_same; done.
Qed.

Lemma registry_consistent_set (m : JsMap.t PrintTemplate) (k : string)
  (c : option ComponentType) (d : option string) :
  registry_consistent m ->
  registry_consistent
    (JsMap.set k {| key := k; component := c; description := d |} m).
Proof.
  unfold registry_consistent. induction 1 as [|[k' t'] m Hk Hm IH]; simpl.
  - by repeat constructor.
  - destruct (String.eqb k k'); constructor; done.
Qed.

Lemma registry_consistent_delete (m : JsMap.t PrintTemplate) (k : string) :
  registry_consistent m -> registry_consistent (JsMap.delete k m).
Proof.
  unfold registry_consistent. induction 1 as [|[k' t'] m Hk Hm IH]; simpl.
  - constructor.
  - destruct (String.eqb k k'); [done | by constructor].
Qed.

(** Writing the registry keeps the invariant. *)
Lemma Inv_registry (w : World)
  (f : JsMap.t PrintTemplate -> JsMap.t PrintTemplate)
  (g : list Event -> list Event) :
  JsMap.wf (f (templateRegistry w)) ->
  registry_consistent (f (templateRegistry w)) ->
  Inv w -> Inv (with_trace g (with_registry f w)).
Proof. intros Hwf Hc [? ? Hopen Hact Hprom]. by split. Qed.

Lemma Inv_initial : Inv initial.
Proof.
  split.
  - apply JsMapFacts.wf_empty.
  - constructor.
  - by intros d r Hd.
  - by intros d Hd.
  - by intros p s Hp.
Qed.

(** [close()] under the invariant: either the ref was not open and only
    the call is recorded, or it was the active ref and no ref is active
    afterwards. *)
Lemma DialogRef_close_Inv (d : nat) (w : World) :
  Inv w ->
  exists w',
    DialogRef_close d w = (Normal tt, w') /\
    Inv w' /\
    templateRegistry w' = templateRegistry w /\
    timers w' = timers w /\
    (same_sessions w w' \/ activeDialogRef w' = None) /\
    (activeDialogRef w = Some d -> activeDialogRef w' = None).
Proof.
  intros HI. pose proof HI as [Hwf Hcons Hopen Hact Hprom].
  unfold DialogRef_close. js_unfold. world_unfold.
  destruct (dialogs w !! d) as [r|] eqn:Hr;
    [destruct (dialog_open r) eqn:Ho|].
  2,3: eexists; split; [reflexivity|];
       split; [by apply (Inv_same w)|];
       split; [done|]; split; [done|]; split; [left; by repeat split|];
       intros Ha; destruct (Hact d Ha) as (r0 & Hr0 & Ho0); simpl; congruence.
  destruct (Hopen d r Hr Ho) as (Ha & p & Hc & Hp).
  rewrite Hc. simpl. js_unfold. world_unfold.
  eexists. split; [reflexivity|].
  split; [|split; [done|]; split; [done|]; split; [by right | done]].
  split; try done.
  - intros d' r' Hd' Ho'. simpl in *. exfalso.
    destruct (decide (d' = d)) as [->|Hne].
    + rewrite list_lookup_alter_eq, Hr in Hd'. simpl in Hd'.
      injection Hd' as <-. done.
    + rewrite list_lookup_alter_ne in Hd' by done.
      destruct (Hopen d' r' Hd' Ho') as [Ha' _]. congruence.
  - intros q s Hq. simpl in *.
    destruct (decide (q = p)) as [->|Hne].
    + rewrite list_lookup_alter_eq, Hp in Hq. simpl in Hq.
      injection Hq as <-. by left.
    + rewrite list_lookup_alter_ne in Hq by done.
      destruct (Hprom q s Hq) as [?|(-> & d' & r' & Hd' & Ho' & Hc')];
        [by left|].
      exfalso. destruct (Hopen d' r' Hd' Ho') as [Ha' _].
      assert (d' = d) as -> by congruence.
      assert (r' = r) as -> by congruence.
      congruence.
Qed.

(** After the closing half of [preview] no ref is active. *)
Lemma close_active_Inv (w : World) :
  Inv w ->
  exists w0,
    close_active w = (Normal tt, w0) /\
    Inv w0 /\
    activeDialogRef w0 = None /\
    templateRegistry w0 = templateRegistry w /\
    timers w0 = timers w.
Proof.
  intros HI. unfold close_active. js_unfold.
  destruct (activeDialogRef w) as [d|] eqn:Ha.
  - destruct (DialogRef_close_Inv d w HI)
      as (w' & -> & HI' & Hreg & Hts & _ & Hnone).
    exists w'. split; [done|]. split; [done|].
    split; [by apply Hnone|]. by split.
  - exists w. split; [done|]. split; [done|]. by repeat split.
Qed.

(** With no ref active, none is open and no promise is pending. *)
Lemma Inv_idle (w : World) :
  Inv w -> activeDialogRef w = None ->
  (forall d r, dialogs w !! d = Some r -> dialog_open r = false) /\
  (forall p s, promises w !! p = Some s -> s = Fulfilled).
Proof.
  intros [_ _ Hopen _ Hprom] Hnone. split.
  - intros d r Hr. destruct (dialog_open r) eqn:Ho; [|done].
    destruct (Hopen d r Hr Ho) as [Ha _]. congruence.
  - intros p s Hp.
    destruct (Hprom p s Hp) as [?|(_ & d & r & Hr & Ho & _)]; [done|].
    destruct (Hopen d r Hr Ho) as [Ha _]. congruence.
Qed.

(** Opening on an idle page establishes the invariant again. *)
Lemma preview_opened_Inv (pd : PrintPreviewData) (w0 : World) :
  Inv w0 -> activeDialogRef w0 = None -> Inv (preview_opened pd w0).
Proof.
  intros HI Hnone. destruct (Inv_idle w0 HI Hnone) as [Hclosed Hful].
  destruct HI as [Hwf Hcons _ _ _].
  split; try done.
  - intros d r Hr Ho. simpl in *.
    destruct (decide (d < length (dialogs w0))) as [Hlt|Hge].
    + rewrite lookup_app_l in Hr by done.
      rewrite (Hclosed d r Hr) in Ho. done.
    + assert (d = length (dialogs w0)) as ->.
      { apply lookup_lt_Some in Hr. rewrite length_app in Hr. simpl in Hr. lia. }
      rewrite lookup_snoc in Hr. injection Hr as <-.
      split; [done|]. eexists. split; [reflexivity|]. apply lookup_snoc.
  - intros d Hd. simpl in *. injection Hd as <-.
    eexists. split; [apply lookup_snoc | done].
  - intros p s Hp. simpl in *.
    destruct (decide (p < length (promises w0))) as [Hlt|Hge].
    + rewrite lookup_app_l in Hp by done. left. by apply (Hful p).
    + assert (p = length (promises w0)) as ->.
      { apply lookup_lt_Some in Hp. rewrite length_app in Hp. simpl in Hp. lia. }
      rewrite lookup_snoc in Hp. injection Hp as <-.
      right. split; [done|].
      eexists _, _. split; [apply lookup_snoc|]. done.
Qed.

Lemma preview_Inv (config : PrintConfig) (w : World) :
  Inv w -> Inv (PrintService.preview config w).2.
Proof.
  intros HI.
  destruct (JsMap.get (templateKey config) (templateRegistry w)) as [t|] eqn:E.
  - destruct (close_active_Inv w HI) as (w0 & Hc & HI0 & Hnone & _).
    rewrite (preview_registered_run w w0 config t E Hc). simpl.
    by apply preview_opened_Inv.
  - by rewrite (preview_unknown_run w config E).
Qed.

Lemma printDirect_Inv (config : PrintConfig) (w : World) :
  Inv w -> Inv (PrintService.printDirect config w).2.
Proof.
  intros HI. unfold PrintService.printDirect, PrintService.getTemplate.
  js_unfold.
  destruct (JsMap.get (templateKey config) (templateRegistry w)) as [t|] eqn:E;
    [|done].
  pose proof (preview_Inv config w HI) as HI'.
  destruct (PrintService.preview config w) as [[p|e] w']; simpl in *; [|done].
  eapply Inv_same; [|exact HI']. apply setTimeout_same_sessions.
Qed.

Lemma closePreview_Inv (w : World) :
  Inv w -> Inv (PrintService.closePreview w).2.
Proof.
  intros HI. unfold PrintService.closePreview. js_unfold.
  destruct (activeDialogRef w) as [d|] eqn:Ha; [|done].
  destruct (DialogRef_close_Inv d w HI)
    as (w' & -> & HI' & _ & _ & _ & Hnone).
  simpl. eapply Inv_same; [|exact HI'].
  repeat split. simpl. by rewrite Hnone.
Qed.

Section RunInvariant.
Variable cc : ComponentType -> option JsError.
Variable dc : TemplateInstance -> option JsError.

Lemma run_task_Inv (k : Task) (w : World) :
  Inv w -> Inv (PrintPreviewComponent.run_task cc dc k w).2.
Proof.
  intros HI. destruct k as [d| |]; simpl.
  - eapply Inv_same; [apply loadTemplate_same_sessions | done].
  - eapply Inv_same; [apply setTimeout_same_sessions | done].
  - eapply Inv_same; [apply emit_same_sessions | done].
Qed.

Lemma tick_Inv (w : World) :
  Inv w -> Inv (PrintPreviewComponent.tick cc dc w).2.
Proof.
  intros HI. unfold PrintPreviewComponent.tick.
  destruct (PrintPreviewComponent.min_due (timers w)) as [t|]; [|done].
  destruct (PrintPreviewComponent.take_due t (timers w)) as [[k rest]|];
    [|done].
  simpl. apply run_task_Inv. eapply Inv_same; [|exact HI]. by repeat split.
Qed.

Lemma step_Inv (a : Action) (w : World) : Inv w -> Inv (step cc dc a w).
Proof.
  intros HI. destruct a as [k c d|k| |cfg|cfg| | |d v|d ev|d| |]; simpl.
  - rewrite registerTemplate_run. unfold registerTemplate_result.
    destruct HI as [Hwf Hcons ? ? ?]. apply Inv_registry; [| |done].
    + by apply JsMapFacts.wf_set.
    + by apply registry_consistent_set.
  - destruct HI as [Hwf Hcons ? ? ?].
    apply (Inv_registry w (JsMap.delete k) (fun t => t)); [| |done].
    + by apply JsMapFacts.wf_delete.
    + by apply registry_consistent_delete.
  - apply (Inv_registry w (fun _ => JsMap.empty)
             (fun t => (t ++ [ConsoleLog "All print templates cleared"])%list));
      [apply JsMapFacts.wf_empty | constructor | done].
  - by apply preview_Inv.
  - by apply printDirect_Inv.
  - eapply Inv_same; [apply setTimeout_same_sessions | done].
  - by apply closePreview_Inv.
  - eapply Inv_same; [|exact HI].
    unfold PrintPreviewComponent.resolveViewChild,
      PrintPreviewComponent.ngAfterViewInit.
    js_unfold. repeat split. simpl. by apply fmap_alter_same.
  - unfold PrintPreviewComponent.onKeydown.
    destruct ((ctrlKey ev || metaKey ev) && String.eqb (event_key ev) "p").
    + eapply Inv_same; [apply setTimeout_same_sessions | done].
    + destruct (String.eqb (event_key ev) "Escape"); [|done].
      unfold PrintPreviewComponent.onClose.
      by destruct (DialogRef_close_Inv d w HI) as (w' & -> & HI' & _).
  - unfold PrintPreviewComponent.onClose.
    by destruct (DialogRef_close_Inv d w HI) as (w' & -> & HI' & _).
  - eapply Inv_same; [apply setTimeout_same_sessions | done].
  - by apply tick_Inv.
Qed.

(** Every state the page can reach from its start satisfies the
    invariant. *)
Lemma run_Inv (acts : list Action) (w : World) :
  Inv w -> Inv (run cc dc acts w).
Proof.
  revert w. induction acts as [|a acts IH]; intros w HI; [done|].
  simpl. apply IH. by apply step_Inv.
Qed.

End RunInvariant.

(* ===================================================================== *)
(** ** More on the registry                                               *)
(* ===================================================================== *)

Section MoreMapFacts.
Context {V : Type}.
Implicit Types (m : JsMap.t V) (k : string) (v : V).

Lemma get_delete_ne m k k' :
  k <> k' -> JsMap.get k' (JsMap.delete k m) = JsMap.get k' m.
Proof.
  intros Hne. induction m as [|[k0 v0] m IH]; simpl; [done|].
  destruct (String.eqb k k0) eqn:E; simpl.
  - apply String.eqb_eq in E. subst k0.
    destruct (String.eqb k' k) eqn:E'; [|done].
    apply String.eqb_eq in E'. congruence.
  - by rewrite IH.
Qed.

Lemma get_delete_eq m k : JsMap.wf m -> JsMap.get k (JsMap.delete k m) = None.
Proof.
  unfold JsMap.wf. induction m as [|[k0 v0] m IH]; simpl; [done|].
  intros Hwf. apply NoDup_cons in Hwf as [Hnotin Hwf].
  destruct (String.eqb k k0) eqn:E; simpl.
  - apply String.eqb_eq in E. subst k0.
    apply JsMapFacts.get_None_keys. intros Hin. apply Hnotin.
    by apply list_elem_of_In.
  - rewrite E. by apply IH.
Qed.

(** Deleting keeps the others in their order. *)
Lemma keys_delete m k :
  JsMap.wf m ->
  JsMap.keys (JsMap.delete k m) =
  List.filter (fun k' => negb (String.eqb k k')) (JsMap.keys m).
Proof.
  unfold JsMap.wf. induction m as [|[k0 v0] m IH]; simpl; [done|].
  intros Hwf. apply NoDup_cons in Hwf as [Hnotin Hwf].
  destruct (String.eqb k k0) eqn:E; simpl.
  - apply String.eqb_eq in E. subst k0.
    symmetry. apply forallb_filter_id. apply forallb_forall.
    intros x Hx. destruct (String.eqb k x) eqn:E'; [|done].
    apply String.eqb_eq in E'. subst x. exfalso. apply Hnotin.
    by apply list_elem_of_In.
  - f_equal. by apply IH.
Qed.

Lemma delete_set_fresh m k v :
  JsMap.get k m = None -> JsMap.delete k (JsMap.set k v m) = m.
Proof.
  induction m as [|[k0 v0] m IH]; simpl.
  - by rewrite String.eqb_refl.
  - destruct (String.eqb k k0) eqn:E; [done|]. simpl. rewrite E.
    intros H. f_equal. by apply IH.
Qed.

Lemma set_same m k v : JsMap.get k m = Some v -> JsMap.set k v m = m.
Proof.
  induction m as [|[k0 v0] m IH]; simpl; [done|].
  destruct (String.eqb k k0) eqn:E.
  - apply String.eqb_eq in E. subst k0. by intros [= ->].
  - intros H. f_equal. by apply IH.
Qed.

Lemma has_keys m k : JsMap.has k m = true <-> In k (JsMap.keys m).
Proof.
  rewrite JsMapFacts.has_get. split.
  - intros H. destruct (in_dec string_dec k (JsMap.keys m)) as [?|Hn]; [done|].
    by apply JsMapFacts.get_None_keys in Hn.
  - intros Hin Hnone. by apply JsMapFacts.get_None_keys in Hnone.
Qed.

End MoreMapFacts.

(** X1. [unregisterTemplate] tells whether the key was registered; after it
    the key is gone, every other key resolves as before and the remaining
    keys keep their order. *)
Theorem unregisterTemplate_removes (w : World) (k : string) :
  JsMap.wf (templateRegistry w) ->
  exists w',
    PrintService.unregisterTemplate k w =
      (Normal (JsMap.has k (templateRegistry w)), w') /\
    PrintService.getTemplate k w' = (Normal None, w') /\
    PrintService.hasTemplate k w' = (Normal false, w') /\
    (forall k', k' <> k ->
       PrintService.getTemplate k' w' =
         (Normal (JsMap.get k' (templateRegistry w)), w')) /\
    PrintService.getRegisteredTemplates w' =
      (Normal (List.filter (fun k' => negb (String.eqb k k'))
                 (JsMap.keys (templateRegistry w))), w') /\
    emitted w w' = [].
Proof.
  intros Hwf. eexists. split; [reflexivity|].
  unfold PrintService.getTemplate, PrintService.hasTemplate,
    PrintService.getRegisteredTemplates, JsMap.has, emitted.
  js_unfold. simpl.
  rewrite get_delete_eq, keys_delete by done.
  repeat split; try done.
  - intros k' Hne. by rewrite get_delete_ne.
  - by rewrite drop_all.
Qed.

Lemma unregisterTemplate_removes_witness :
  JsMap.wf (templateRegistry registered) /\
  exists w',
    PrintService.unregisterTemplate "report" registered = (Normal true, w') /\
    PrintService.getTemplate "report" w' = (Normal None, w') /\
    PrintService.getRegisteredTemplates w' =
      (Normal ["invoice"; "table"], w').
Proof.
  assert (JsMap.wf (templateRegistry registered)) as Hwf.
  { apply (bool_decide_unpack _). by vm_compute. }
  split; [exact Hwf|].
  destruct (unregisterTemplate_removes registered "report" Hwf)
    as (w' & H1 & H2 & _ & _ & H5 & _).
  exists w'. split; [exact H1|]. split; [exact H2|]. exact H5.
Defined.

(** X2. Registering a key that was not registered and unregistering it
    again gives back the registry as it was, and the unregistration
    reports that the key existed. *)
Theorem register_unregister_roundtrip (w : World) (k : string)
  (c : option ComponentType) (d : option string) :
  JsMap.get k (templateRegistry w) = None ->
  exists w1 w2,
    PrintService.registerTemplate k c d w = (Normal tt, w1) /\
    PrintService.unregisterTemplate k w1 = (Normal true, w2) /\
    templateRegistry w2 = templateRegistry w /\
    emitted w w2 =
      [ConsoleLog ("Print template '" ++ k ++ "' registered successfully")].
Proof.
  intros Hfresh. eexists _, _.
  split; [apply registerTemplate_run|].
  unfold PrintService.unregisterTemplate, PrintService.hasTemplate,
    registerTemplate_result, emitted.
  js_unfold. simpl.
  assert (JsMap.has k (JsMap.set k
            {| key := k; component := c; description := d |}
            (templateRegistry w)) = true) as ->.
  { apply JsMapFacts.has_get. by rewrite JsMapFacts.get_set_eq. }
  split; [reflexivity|]. simpl. split; [by apply delete_set_fresh|].
  assert (JsMap.has k (templateRegistry w) = false) as ->.
  { unfold JsMap.has. by rewrite Hfresh. }
  simpl. by rewrite drop_app_length.
Qed.

Lemma register_unregister_roundtrip_witness :
  JsMap.get "receipt" (templateRegistry registered) = None /\
  exists w1 w2,
    PrintService.registerTemplate "receipt"
      (Some (ComponentClass "app-receipt-print")) None registered
      = (Normal tt, w1) /\
    PrintService.unregisterTemplate "receipt" w1 = (Normal true, w2) /\
    templateRegistry w2 = templateRegistry registered.
Proof.
  split; [reflexivity|].
  destruct (register_unregister_roundtrip registered "receipt"
              (Some (ComponentClass "app-receipt-print")) None eq_refl)
    as (w1 & w2 & H1 & H2 & H3 & _).
  by exists w1, w2.
Defined.

(** X3. The four ways of asking the registry agree: [hasTemplate] holds
    exactly for the keys [getTemplate] resolves, these are the keys
    [getRegisteredTemplates] lists, [getStats] reports that list with its
    length, and [getAllTemplates] has one descriptor per key. *)
Theorem registry_queries_agree (w : World) (k : string) :
  exists b t ks ts,
    PrintService.hasTemplate k w = (Normal b, w) /\
    PrintService.getTemplate k w = (Normal t, w) /\
    PrintService.getRegisteredTemplates w = (Normal ks, w) /\
    PrintService.getAllTemplates w = (Normal ts, w) /\
    PrintService.getStats w = (Normal (length ks, ks), w) /\
    (b = true <-> t <> None) /\
    (b = true <-> In k ks) /\
    length ts = length ks.
Proof.
  eexists _, _, _, _. do 4 (split; [reflexivity|]).
  split.
  { unfold PrintService.getStats, PrintService.getRegisteredTemplates.
    js_unfold. unfold JsMap.size, JsMap.keys. by rewrite length_map. }
  split; [apply JsMapFacts.has_get|]. split; [apply has_keys|].
  unfold JsMap.values, JsMap.keys. by rewrite !length_map.
Qed.

(** X4. Registering again under a key leaves the order of the listing
    alone; a new key goes to the end. *)
Theorem registerTemplate_keeps_order (w : World) (k : string)
  (c : option ComponentType) (d : option string) :
  exists w',
    PrintService.registerTemplate k c d w = (Normal tt, w') /\
    JsMap.keys (templateRegistry w') =
      if JsMap.has k (templateRegistry w)
      then JsMap.keys (templateRegistry w)
      else (JsMap.keys (templateRegistry w) ++ [k])%list.
Proof.
  eexists. split; [apply registerTemplate_run|]. simpl.
  destruct (JsMap.has k (templateRegistry w)) eqn:E.
  - apply JsMapFacts.keys_set_present. by apply JsMapFacts.has_get.
  - apply JsMapFacts.keys_set_fresh. unfold JsMap.has in E.
    by destruct (JsMap.get k (templateRegistry w)).
Qed.

Lemma registerDefaultTemplates_run (w : World) :
  registerDefaultTemplates w =
  (Normal tt,
   with_trace
     (fun t => (t ++ [ConsoleLog "Print templates registered successfully"])%list)
     (registerTemplate_result (key table_template) (component table_template)
        (description table_template)
        (registerTemplate_result (key report_template)
           (component report_template)
           (description report_template)
           (registerTemplate_result (key invoice_template)
              (component invoice_template)
              (description invoice_template) w)))).
Proof.
  unfold registerDefaultTemplates. unfold bind at 1.
  rewrite registerTemplate_run. unfold bind at 1.
  rewrite registerTemplate_run. unfold bind at 1.
  by rewrite registerTemplate_run.
Qed.

(** Registering what is registered already only talks. *)
Lemma registerTemplate_again (w : World) (t : PrintTemplate) :
  JsMap.get (key t) (templateRegistry w) = Some t ->
  registerTemplate_result (key t) (component t) (description t) w =
  with_trace
    (fun tr =>
       (tr ++ [ConsoleWarn ("Print template with key '" ++ key t ++
                            "' is already registered. Overwriting...");
               ConsoleLog ("Print template '" ++ key t ++
                           "' registered successfully")])%list) w.
Proof.
  intros H. unfold registerTemplate_result, JsMap.has. rewrite H.
  destruct t as [k c d]. simpl in *.
  unfold with_trace, with_registry. simpl. by rewrite (set_same _ _ _ H).
Qed.

(** X5. After [registerDefaultTemplates], whatever was registered before,
    the three built-in keys resolve to the built-in descriptors; running
    it a second time leaves the registry as it is and warns once per key. *)
Theorem registerDefaultTemplates_idempotent (w : World) :
  exists w1 w2,
    registerDefaultTemplates w = (Normal tt, w1) /\
    registerDefaultTemplates w1 = (Normal tt, w2) /\
    PrintService.getTemplate "invoice" w1 = (Normal (Some invoice_template), w1) /\
    PrintService.getTemplate "report" w1 = (Normal (Some report_template), w1) /\
    PrintService.getTemplate "table" w1 = (Normal (Some table_template), w1) /\
    templateRegistry w2 = templateRegistry w1 /\
    warnings (emitted w1 w2) = 3.
Proof.
  eexists _, _.
  split; [apply registerDefaultTemplates_run|].
  split; [apply registerDefaultTemplates_run|].
  set (w1 := with_trace _ _).
  assert (JsMap.get "invoice" (templateRegistry w1) = Some invoice_template)
    as Hi.
  { simpl. rewrite !JsMapFacts.get_set_ne by done.
    apply JsMapFacts.get_set_eq. }
  assert (JsMap.get "report" (templateRegistry w1) = Some report_template)
    as Hr.
  { simpl. rewrite !JsMapFacts.get_set_ne by done.
    apply JsMapFacts.get_set_eq. }
  assert (JsMap.get "table" (templateRegistry w1) = Some table_template)
    as Ht by apply JsMapFacts.get_set_eq.
  unfold PrintService.getTemplate. js_unfold.
  rewrite Hi, Hr, Ht. do 3 (split; [done|]).
  rewrite (registerTemplate_again w1 invoice_template Hi).
  set (w1a := with_trace _ w1).
  rewrite (registerTemplate_again w1a report_template Hr).
  set (w1b := with_trace _ w1a).
  rewrite (registerTemplate_again w1b table_template Ht).
  subst w1a w1b. clearbody w1.
  split; [done|].
  unfold emitted, warnings. simpl.
  rewrite <- !app_assoc. by rewrite drop_app_length.
Qed.

(** X6. After [clearAllTemplates] nothing is registered: the statistics
    are zero and every [preview] and [printDirect] is refused, [preview]
    naming "none" as what is available. *)
Theorem clearAllTemplates_empties (w : World) (config : PrintConfig) :
  exists w',
    PrintService.clearAllTemplates w = (Normal tt, w') /\
    PrintService.getStats w' = (Normal (0, []), w') /\
    PrintService.preview config w' =
      (Throw (Error ("Print template '" ++ templateKey config ++
                     "' not found. Available templates: none")), w') /\
    PrintService.printDirect config w' =
      (Throw (Error ("Print template '" ++ templateKey config ++
                     "' not found")), w').
Proof. eexists. repeat split. Qed.

(** X7. Previewing, printing and closing never write the registry. *)
Theorem sessions_leave_registry (w : World) (config : PrintConfig) :
  templateRegistry (PrintService.preview config w).2 = templateRegistry w /\
  templateRegistry (PrintService.printDirect config w).2 = templateRegistry w /\
  templateRegistry (PrintService.print w).2 = templateRegistry w /\
  templateRegistry (PrintService.closePreview w).2 = templateRegistry w.
Proof.
  assert (templateRegistry (PrintService.preview config w).2
          = templateRegistry w) as Hp.
  { destruct (JsMap.get (templateKey config) (templateRegistry w))
      as [t|] eqn:E.
    - destruct (close_active_frame w) as (w0 & Hc & Hreg & _).
      by rewrite (preview_registered_run w w0 config t E Hc).
    - by rewrite (preview_unknown_run w config E). }
  split; [exact Hp|]. split; [|split; [done|]].
  - unfold PrintService.printDirect, PrintService.getTemplate. js_unfold.
    destruct (JsMap.get (templateKey config) (templateRegistry w)); [|done].
    rewrite <- Hp.
    destruct (PrintService.preview config w) as [[q|e] w']; done.
  - unfold PrintService.closePreview. js_unfold.
    destruct (activeDialogRef w) as [d|]; [|done].
    by destruct (DialogRef_close_frame d w) as (w' & -> & Hreg & _).
Qed.

(* ===================================================================== *)
(** ** What holds in every reachable state                                *)
(* ===================================================================== *)

(** X8. Whatever is done to the page from its start, the listed keys are
    pairwise different and the descriptors, in listing order, carry exactly
    those keys. *)
Theorem reachable_registry_sound
  (cc : ComponentType -> option JsError)
  (dc : TemplateInstance -> option JsError) (acts : list Action) :
  exists ks ts,
    PrintService.getRegisteredTemplates (run cc dc acts initial)
      = (Normal ks, run cc dc acts initial) /\
    PrintService.getAllTemplates (run cc dc acts initial)
      = (Normal ts, run cc dc acts initial) /\
    NoDup ks /\
    map key ts = ks.
Proof.
  destruct (run_Inv cc dc acts initial Inv_initial) as [Hwf Hcons _ _ _].
  eexists _, _. split; [reflexivity|]. split; [reflexivity|].
  split; [exact Hwf|].
  unfold JsMap.values, JsMap.keys. rewrite map_map. clear Hwf.
  induction Hcons as [|[k t] m Hk Hm IH]; simpl; [done|].
  simpl in Hk. by rewrite Hk, IH.
Qed.

(** X9. Whatever is done to the page from its start, a dialog that is
    open is the one the service holds as active, and the active reference
    always is a dialog that is open: never two previews open at once,
    never a stale reference. *)
Theorem reachable_single_open_dialog
  (cc : ComponentType -> option JsError)
  (dc : TemplateInstance -> option JsError) (acts : list Action) :
  (forall d r,
     dialogs (run cc dc acts initial) !! d = Some r ->
     dialog_open r = true ->
     activeDialogRef (run cc dc acts initial) = Some d) /\
  (forall d,
     activeDialogRef (run cc dc acts initial) = Some d ->
     exists r, dialogs (run cc dc acts initial) !! d = Some r /\
               dialog_open r = true).
Proof.
  destruct (run_Inv cc dc acts initial Inv_initial) as [_ _ Hopen Hact _].
  split; [|exact Hact].
  intros d r Hr Ho. by destruct (Hopen d r Hr Ho).
Qed.

(** X10. Whatever is done to the page from its start, no promise of
    [preview] is ever rejected: each is fulfilled, or pending while its
    dialog is the open, active one. *)
Theorem reachable_promises_settle
  (cc : ComponentType -> option JsError)
  (dc : TemplateInstance -> option JsError) (acts : list Action)
  (p : nat) (s : PromiseState) :
  promises (run cc dc acts initial) !! p = Some s ->
  s = Fulfilled \/
  (s = Pending /\
   exists d r,
     activeDialogRef (run cc dc acts initial) = Some d /\
     dialogs (run cc dc acts initial) !! d = Some r /\
     dialog_open r = true /\
     closed r = [OnClosed p]).
Proof.
  intros Hp.
  destruct (run_Inv cc dc acts initial Inv_initial) as [_ _ Hopen _ Hprom].
  destruct (Hprom p s Hp) as [?|(-> & d & r & Hr & Ho & Hc)]; [by left|].
  right. split; [done|]. exists d, r.
  destruct (Hopen d r Hr Ho) as [Ha _]. done.
Qed.

Lemma reachable_single_open_dialog_witness :
  activeDialogRef (run no_rendering_error no_detection_error demo_run initial)
    = Some 1 /\
  exists r,
    dialogs (run no_rendering_error no_detection_error demo_run initial) !! 1
      = Some r /\
    dialog_open r = true.
Proof.
  split; [reflexivity|].
  exact (proj2 (reachable_single_open_dialog
                  no_rendering_error no_detection_error demo_run) 1 eq_refl).
Defined.

Lemma reachable_promises_settle_witness :
  promises (run no_rendering_error no_detection_error demo_run initial) !! 1
    = Some Pending /\
  (Pending = Fulfilled \/
   (Pending = Pending /\
    exists d r,
      activeDialogRef
        (run no_rendering_error no_detection_error demo_run initial) = Some d /\
      dialogs (run no_rendering_error no_detection_error demo_run initial) !! d
        = Some r /\
      dialog_open r = true /\
      closed r = [OnClosed 1])).
Proof.
  split; [reflexivity|].
  exact (reachable_promises_settle
           no_rendering_error no_detection_error demo_run 1 Pending eq_refl).
Defined.

(* ===================================================================== *)
(** ** More on the preview lifecycle                                      *)
(* ===================================================================== *)

Lemma tick_single
  (cc : ComponentType -> option JsError)
  (dc : TemplateInstance -> option JsError)
  (w : World) (t : nat) (k : Task) :
  timers w = [(t, k)] ->
  PrintPreviewComponent.tick cc dc w =
  (Normal true,
   (PrintPreviewComponent.run_task cc dc k
      (with_now (Nat.max (now w) t) (with_timers (fun _ => []) w))).2).
Proof.
  intros H. unfold PrintPreviewComponent.tick. rewrite H. simpl.
  by rewrite Nat.eqb_refl.
Qed.

(** X11. [loadTemplate] always returns and always ends the loading state:
    the preview is ready, with the template given the session's data and
    options, exactly when there is a mount point and a renderer handle and
    neither the constructor nor the first change detection throws;
    otherwise it shows the fixed error message.  Promises and the active
    reference are not touched. *)
Theorem loadTemplate_outcome
  (cc : ComponentType -> option JsError)
  (dc : TemplateInstance -> option JsError)
  (d : nat) (w : World) (c : DialogRef) :
  dialogs w !! d = Some c ->
  error c = None ->
  exists w' c',
    PrintPreviewComponent.loadTemplate cc dc d w = (Normal tt, w') /\
    dialogs w' !! d = Some c' /\
    isLoading c' = false /\
    PrintPreviewComponent.state c' =
      (if mounts cc dc c then Ready else Failed) /\
    (if mounts cc dc c
     then exists cls, templateComponent (dialog_data c) = Some cls /\
                      componentRef c' = Some (instance_for c cls)
     else error c' =
            Some "Failed to load print template. Please try again.") /\
    promises w' = promises w /\
    activeDialogRef w' = activeDialogRef w /\
    dialog_open c' = dialog_open c.
Proof.
  intros Hc Herr.
  unfold PrintPreviewComponent.loadTemplate,
    PrintPreviewComponent.loadTemplate_try, PrintPreviewComponent.may_throw,
    mounts, PrintPreviewComponent.state, PrintPreviewComponent.isReady.
  js_unfold. rewrite Hc. world_unfold.
  destruct (templateContainer c) as [vc|];
    [destruct (templateComponent (dialog_data c)) as [cls|];
     [fold (instance_for c cls);
      destruct (cc cls) as [e1|]; simpl;
      [|destruct (dc (instance_for c cls)) as [e2|]]|]|];
    simpl; eexists _, _; (split; [reflexivity|]); simpl;
    rewrite ?list_lookup_alter_eq, ?Hc; simpl;
    (split; [reflexivity|]); simpl; rewrite ?Herr; eauto 10.
Qed.

Lemma loadTemplate_outcome_witness :
  dialogs loading_world !! 0 = Some loading_dialog /\
  error loading_dialog = None /\
  exists w' c',
    PrintPreviewComponent.loadTemplate no_rendering_error no_detection_error 0
      loading_world = (Normal tt, w') /\
    dialogs w' !! 0 = Some c' /\
    isLoading c' = false /\
    PrintPreviewComponent.state c' =
      (if mounts no_rendering_error no_detection_error loading_dialog
       then Ready else Failed) /\
    (if mounts no_rendering_error no_detection_error loading_dialog
     then exists cls,
            templateComponent (dialog_data loading_dialog) = Some cls /\
            componentRef c' = Some (instance_for loading_dialog cls)
     else error c' =
            Some "Failed to load print template. Please try again.") /\
    promises w' = promises loading_world /\
    activeDialogRef w' = activeDialogRef loading_world /\
    dialog_open c' = dialog_open loading_dialog.
Proof.
  split; [reflexivity|]. split; [reflexivity|].
  exact (loadTemplate_outcome no_rendering_error no_detection_error 0
           loading_world loading_dialog eq_refl eq_refl).
Defined.

Lemma close_active_clock (w : World) :
  exists w0,
    close_active w = (Normal tt, w0) /\
    templateRegistry w0 = templateRegistry w /\
    timers w0 = timers w /\ now w0 = now w.
Proof.
  unfold close_active. js_unfold.
  destruct (activeDialogRef w) as [d|].
  - destruct (DialogRef_close_frame d w)
      as (w' & -> & Hreg & _ & Hts & Hnow & _).
    by exists w'.
  - by exists w.
Qed.

(** X12. [printDirect] with a registered key opens the preview exactly as
    [preview] does and returns its promise; with no other timer pending,
    [window.print()] is called once, 350 ms after the call, and that is
    all: the dialog stays open, the service keeps it as active, and the
    promise stays pending until somebody closes the dialog. *)
Theorem printDirect_prints_and_stays_open
  (cc : ComponentType -> option JsError)
  (dc : TemplateInstance -> option JsError)
  (w : World) (config : PrintConfig) (t : PrintTemplate) :
  JsMap.get (templateKey config) (templateRegistry w) = Some t ->
  timers w = [] ->
  exists p w1 d w2,
    PrintService.preview config w = (Normal p, w1) /\
    activeDialogRef w1 = Some d /\
    (PrintService.printDirect config w).1 = Normal p /\
    (_ <- PrintService.printDirect config ;;
     PrintPreviewComponent.ticks cc dc 2) w = (Normal tt, w2) /\
    emitted w1 w2 = [WindowPrint] /\
    now w2 = now w + 350 /\
    timers w2 = [] /\
    activeDialogRef w2 = Some d /\
    promises w2 !! p = Some Pending /\
    (exists r, dialogs w2 !! d = Some r /\ dialog_open r = true).
Proof.
  intros Hget Hts.
  destruct (close_active_clock w) as (w0 & Hclose & Hreg & Hts0 & Hnow0).
  pose proof (preview_registered_run w w0 config t Hget Hclose) as Hp.
  set (pd := previewData_of t config) in *.
  exists (length (promises w0)), (preview_opened pd w0), (length (dialogs w0)).
  assert (PrintService.printDirect config w =
          (Normal (length (promises w0)),
           with_timers (fun _ => [(now w + 100, TaskPrint)])
             (preview_opened pd w0))) as Hpd.
  { unfold PrintService.printDirect, PrintService.getTemplate, setTimeout.
    js_unfold. rewrite Hget, Hp. unfold with_timers. simpl.
    by rewrite Hts0, Hts, Hnow0. }
  eexists. split; [exact Hp|]. split; [done|].
  split; [by rewrite Hpd|].
  split.
  { unfold PrintPreviewComponent.ticks. unfold bind at 1. rewrite Hpd.
    unfold bind at 1. rewrite (tick_single cc dc _ (now w + 100) TaskPrint)
      by done.
    simpl. unfold setTimeout. simpl.
    unfold bind at 1.
    erewrite (tick_single cc dc _ _ TaskWindowPrint) by reflexivity.
    simpl. reflexivity. }
  unfold emitted. simpl.
  split; [by rewrite drop_app_length|].
  split; [rewrite Hnow0; lia|].
  split; [done|]. split; [done|].
  split; [apply lookup_snoc|].
  eexists. split; [apply lookup_snoc | done].
Qed.

Lemma printDirect_prints_and_stays_open_witness :
  JsMap.get (templateKey (config_for "invoice")) (templateRegistry registered)
    = Some invoice_template /\
  timers registered = [] /\
  exists p w1 d w2,
    PrintService.preview (config_for "invoice") registered = (Normal p, w1) /\
    activeDialogRef w1 = Some d /\
    (PrintService.printDirect (config_for "invoice") registered).1 = Normal p /\
    (_ <- PrintService.printDirect (config_for "invoice") ;;
     PrintPreviewComponent.ticks no_rendering_error no_detection_error 2)
      registered = (Normal tt, w2) /\
    emitted w1 w2 = [WindowPrint] /\
    now w2 = now registered + 350 /\
    timers w2 = [] /\
    activeDialogRef w2 = Some d /\
    promises w2 !! p = Some Pending /\
    (exists r, dialogs w2 !! d = Some r /\ dialog_open r = true).
Proof.
  split; [reflexivity|]. split; [reflexivity|].
  exact (printDirect_prints_and_stays_open
           no_rendering_error no_detection_error registered
           (config_for "invoice") invoice_template eq_refl eq_refl).
Defined.

(** X13. The way to a rendered preview: with a registered key whose
    renderer constructs and detects changes without throwing, [preview],
    the view initialisation with a mount point and the timer that
    [ngAfterViewInit] sets (no other timer pending) leave the preview
    ready, its template given the caller's data as it came and the
    options merged over the defaults, and the promise still pending. *)
Theorem preview_renders_template
  (cc : ComponentType -> option JsError)
  (dc : TemplateInstance -> option JsError)
  (w : World) (config : PrintConfig) (t : PrintTemplate)
  (cls : ComponentType) (vc : ViewContainerRef) :
  JsMap.get (templateKey config) (templateRegistry w) = Some t ->
  component t = Some cls ->
  cc cls = None ->
  dc {| inst_class := cls; inst_data := data config;
        inst_options := mergeDefaultOptions (options config) |} = None ->
  timers w = [] ->
  exists p w1 d w2 c,
    PrintService.preview config w = (Normal p, w1) /\
    activeDialogRef w1 = Some d /\
    run cc dc [ActViewInit d (Some vc); ActTick] w1 = w2 /\
    dialogs w2 !! d = Some c /\
    PrintPreviewComponent.state c = Ready /\
    componentRef c =
      Some {| inst_class := cls; inst_data := data config;
              inst_options := mergeDefaultOptions (options config) |} /\
    promises w2 !! p = Some Pending /\
    activeDialogRef w2 = Some d.
Proof.
  intros Hget Hcomp Hcc Hdc Hts.
  destruct (close_active_clock w) as (w0 & Hclose & Hreg & Hts0 & Hnow0).
  pose proof (preview_registered_run w w0 config t Hget Hclose) as Hp.
  eexists _, _, (length (dialogs w0)), _, _.
  split; [exact Hp|]. split; [done|]. split; [reflexivity|].
  unfold run, step, PrintPreviewComponent.resolveViewChild,
    PrintPreviewComponent.ngAfterViewInit, setTimeout.
  js_unfold. world_unfold. rewrite alter_snoc, Hts0, Hts. simpl.
  unfold PrintPreviewComponent.tick. simpl. rewrite Nat.eqb_refl. simpl.
  unfold PrintPreviewComponent.loadTemplate,
    PrintPreviewComponent.loadTemplate_try, PrintPreviewComponent.may_throw.
  js_unfold. world_unfold. rewrite lookup_snoc. simpl.
  rewrite Hcomp. simpl. rewrite Hcc. simpl. rewrite Hdc. simpl.
  rewrite !alter_snoc. simpl.
  split; [apply lookup_snoc|]. split; [done|]. split; [done|].
  split; [apply lookup_snoc | done].
Qed.

Lemma preview_renders_template_witness :
  exists p w1 d w2 c,
    PrintService.preview (config_for "invoice") registered = (Normal p, w1) /\
    activeDialogRef w1 = Some d /\
    run no_rendering_error no_detection_error
      [ActViewInit d (Some (ViewContainer "templateContainer")); ActTick] w1
      = w2 /\
    dialogs w2 !! d = Some c /\
    PrintPreviewComponent.state c = Ready /\
    componentRef c =
      Some {| inst_class := ComponentClass "app-invoice-print";
              inst_data := data (config_for "invoice");
              inst_options :=
                mergeDefaultOptions (options (config_for "invoice")) |} /\
    promises w2 !! p = Some Pending /\
    activeDialogRef w2 = Some d.
Proof.
  exact (preview_renders_template no_rendering_error no_detection_error
           registered (config_for "invoice") invoice_template
           (ComponentClass "app-invoice-print")
           (ViewContainer "templateContainer")
           eq_refl eq_refl eq_refl eq_refl eq_refl).
Defined.

(** X14. However the preview is closed - [closePreview()] from the
    application, the close button, or the Escape key - the promise that
    [preview] returned is fulfilled at once, the service holds no active
    dialog, and the dialog is closed. *)
Theorem closing_fulfils_promise (w : World) (config : PrintConfig)
  (t : PrintTemplate) (ctrl meta : bool) :
  JsMap.get (templateKey config) (templateRegistry w) = Some t ->
  exists p w1 d w2,
    PrintService.preview config w = (Normal p, w1) /\
    activeDialogRef w1 = Some d /\
    PrintService.closePreview w1 = (Normal tt, w2) /\
    PrintPreviewComponent.onClose d w1 = (Normal tt, w2) /\
    PrintPreviewComponent.onKeydown d
      {| ctrlKey := ctrl; metaKey := meta; event_key := "Escape" |} w1
      = (Normal tt, w2) /\
    promises w2 !! p = Some Fulfilled /\
    activeDialogRef w2 = None /\
    (exists r, dialogs w2 !! d = Some r /\ dialog_open r = false).
Proof.
  intros Hget.
  destruct (close_active_frame w) as (w0 & Hclose & _).
  pose proof (preview_registered_run w w0 config t Hget Hclose) as Hp.
  set (pd := previewData_of t config) in *.
  set (w1 := preview_opened pd w0) in *.
  set (r := add_subscriber (OnClosed (length (promises w0))) (fresh_dialog pd)).
  assert (DialogRef_close (length (dialogs w0)) w1 =
          (Normal tt, closed_last w1 (dialogs w0) r (promises w0))) as Hc
    by by apply close_last.
  exists (length (promises w0)), w1, (length (dialogs w0)),
    (closed_last w1 (dialogs w0) r (promises w0)).
  split; [exact Hp|]. split; [done|].
  split.
  { change (PrintService.closePreview w1)
      with (bind (DialogRef_close (length (dialogs w0)))
              (fun _ => modify (with_active None)) w1).
    unfold bind. by rewrite Hc. }
  split; [exact Hc|].
  split.
  { unfold PrintPreviewComponent.onKeydown. simpl.
    rewrite andb_false_r. exact Hc. }
  simpl. split; [apply lookup_snoc|]. split; [done|].
  eexists. split; [apply lookup_snoc | done].
Qed.

Lemma closing_fulfils_promise_witness :
  exists p w1 d w2,
    PrintService.preview (config_for "report") registered = (Normal p, w1) /\
    activeDialogRef w1 = Some d /\
    PrintService.closePreview w1 = (Normal tt, w2) /\
    PrintPreviewComponent.onClose d w1 = (Normal tt, w2) /\
    PrintPreviewComponent.onKeydown d
      {| ctrlKey := false; metaKey := false; event_key := "Escape" |} w1
      = (Normal tt, w2) /\
    promises w2 !! p = Some Fulfilled /\
    activeDialogRef w2 = None /\
    (exists r, dialogs w2 !! d = Some r /\ dialog_open r = false).
Proof.
  exact (closing_fulfils_promise registered (config_for "report")
           report_template false false eq_refl).
Defined.

(** X15. The keyboard handler: the session (active reference, promises,
    which refs are open) changes only on Escape; a timer is added only on
    p with Ctrl or Cmd held, and then the session is left alone, so the
    print shortcut never closes the preview; any other key changes
    nothing at all. *)
Theorem onKeydown_dispatch (d : nat) (event : KeyboardEvent) (w : World) :
  exists w',
    PrintPreviewComponent.onKeydown d event w = (Normal tt, w') /\
    (event_key event <> "Escape" -> same_sessions w w') /\
    ((ctrlKey event || metaKey event) = false \/ event_key event <> "p" ->
     timers w' = timers w) /\
    (event_key event <> "Escape" -> event_key event <> "p" -> w' = w) /\
    ((ctrlKey event || metaKey event) = true -> event_key event = "p" ->
     w' = (PrintService.print w).2).
Proof.
  unfold PrintPreviewComponent.onKeydown, PrintPreviewComponent.onPrint,
    PrintPreviewComponent.onClose.
  destruct (String.eqb (event_key event) "p") eqn:Ep;
    [apply String.eqb_eq in Ep | apply String.eqb_neq in Ep];
  (destruct (String.eqb (event_key event) "Escape") eqn:Ee;
    [apply String.eqb_eq in Ee | apply String.eqb_neq in Ee]);
  destruct (ctrlKey event || metaKey event) eqn:Em; simpl.
  all: try (rewrite Ep in Ee; discriminate).
  - (* Ctrl/Cmd + p *)
    eexists. split; [reflexivity|]. split; [intros _; by repeat split|].
    split; [intros [?|?]; done|]. by split.
  - (* p alone *)
    exists w. split; [done|]. split; [intros _; apply same_sessions_refl|].
    by repeat split.
  - (* Escape, with Ctrl/Cmd *)
    destruct (DialogRef_close_frame d w) as (w' & -> & _ & _ & Hts & _).
    exists w'. split; [done|]. split; [done|]. split; [done|].
    by split; [|intros _ Hp; rewrite Hp in Ee].
  - (* Escape *)
    destruct (DialogRef_close_frame d w) as (w' & -> & _ & _ & Hts & _).
    exists w'. split; [done|]. split; [done|]. split; [done|]. by split.
  - (* another key, with Ctrl/Cmd *)
    exists w. split; [done|]. split; [intros _; apply same_sessions_refl|].
    by repeat split.
  - (* another key *)
    exists w. split; [done|]. split; [intros _; apply same_sessions_refl|].
    by repeat split.
Qed.

Lemma onKeydown_dispatch_witness :
  exists w',
    PrintPreviewComponent.onKeydown 0
      {| ctrlKey := true; metaKey := false; event_key := "P" |}
      loading_world = (Normal tt, w') /\
    w' = loading_world.
Proof.
  destruct (onKeydown_dispatch 0
              {| ctrlKey := true; metaKey := false; event_key := "P" |}
              loading_world)
    as (w' & H & _ & _ & Hsame & _).
  exists w'. split; [exact H|].
  apply Hsame; simpl; discriminate.
Defined.

(** X16. The title bar of a preview opened through the service: the
    caller's title if it is truthy, 'Print Preview' if the caller gave a
    falsy one, and the default 'Document' if the caller gave none - so
    without a caller asking for it the 'Print Preview' fallback never
    shows. *)
Theorem getTitle_of_merged_options (tc : option ComponentType)
  (payload : JsValue) (o : option JsObject) :
  PrintPreviewComponent.getTitle
    (fresh_dialog {| templateComponent := tc; preview_data := payload;
                     preview_options := mergeDefaultOptions o |}) =
  match o ≫= (fun ob => ob !! "title") with
  | None => JStr "Document"
  | Some v => if truthy v then v else JStr "Print Preview"
  end.
Proof.
  unfold PrintPreviewComponent.getTitle, or_value. simpl.
  destruct o as [ob|]; simpl.
  - rewrite prop_merge. destruct (ob !! "title") as [v|]; [done|].
    by vm_compute.
  - rewrite merge_undefined. by vm_compute.
Qed.

Lemma defined_after_merge (o : option JsObject) (k : string) :
  defined (prop defaults k) = true ->
  defined (prop (mergeDefaultOptions o) k) =
  negb (bool_decide (o ≫= (fun ob => ob !! k) = Some JUndefined)).
Proof.
  intros Hd. destruct o as [ob|]; simpl.
  - rewrite prop_merge. destruct (ob !! k) as [v|]; [|done].
    destruct v; by vm_compute.
  - by rewrite merge_undefined.
Qed.

(** X17. When the merged options are fully populated: exactly when the
    caller's object holds none of the eight defaulted fields set to
    [undefined] (a caller who passes no options, or leaves fields out, or
    sets them to values, gets every default filled in). *)
Theorem merge_populated_unless_undefined (o : option JsObject) :
  fully_populated (mergeDefaultOptions o) =
  forallb (fun k => negb (bool_decide
                            (o ≫= (fun ob => ob !! k) = Some JUndefined)))
          [ "orientation"; "pageSize"; "showHeader"; "showFooter";
            "showPageNumbers"; "title"; "rtl"; "copies" ].
Proof.
  unfold fully_populated, defaulted_fields, documented_defaults.
  simpl map. unfold forallb.
  rewrite !defined_after_merge by (vm_compute; reflexivity).
  reflexivity.
Qed.

(* ===================================================================== *)
(** ** Options that have no default                                       *)
(* ===================================================================== *)

(** X18. A key without a documented default goes through the merge as the
    caller gave it, and stays absent if the caller gave none: [headerData],
    [footerData] and [watermark] are handed on untouched, and the
    template's [watermark] reads the same from raw and merged options. *)
Theorem merge_passes_through (o : option JsObject) (k : string) :
  ~ In k defaulted_fields ->
  mergeDefaultOptions o !! k = o ≫= (fun ob => ob !! k) /\
  BasePrintTemplateComponent.watermark o =
    BasePrintTemplateComponent.watermark (Some (mergeDefaultOptions o)).
Proof.
  intros Hk.
  assert (forall k', ~ In k' defaulted_fields -> defaults !! k' = None) as Hd.
  { intros k' Hk'. rewrite defaults_documented.
    apply not_elem_of_list_to_map_1. intros Hin. apply Hk'.
    by apply list_elem_of_In. }
  split.
  - destruct o as [ob|]; simpl.
    + rewrite lookup_merge. destruct (ob !! k); [done|]. by apply Hd.
    + rewrite merge_undefined. by apply Hd.
  - unfold BasePrintTemplateComponent.watermark. simpl.
    assert (defaults !! "watermark" = None) as Hw.
    { apply Hd. simpl. intros H.
      repeat (destruct H as [H|H]; [discriminate|]). done. }
    destruct o as [ob|]; simpl.
    + rewrite prop_merge. unfold prop.
      destruct (ob !! "watermark"); [done|]. by rewrite Hw.
    + rewrite merge_undefined. unfold prop. by rewrite Hw.
Qed.

Lemma merge_passes_through_witness :
  mergeDefaultOptions (Some (literal [("headerData", JRef 7)])) !! "headerData"
    = Some (literal [("headerData", JRef 7)]) ≫= (fun ob => ob !! "headerData") /\
  BasePrintTemplateComponent.watermark
    (Some (literal [("headerData", JRef 7)])) =
  BasePrintTemplateComponent.watermark
    (Some (mergeDefaultOptions (Some (literal [("headerData", JRef 7)])))).
Proof.
  apply (merge_passes_through
           (Some (literal [("headerData", JRef 7)])) "headerData").
  simpl. intros H. repeat (destruct H as [H|H]; [discriminate|]). done.
Defined.

(* ===================================================================== *)
(** ** The report template                                                *)
(* ===================================================================== *)

Lemma filter_split {A} (f : A -> bool) (l : list A) :
  List.filter f l ++ List.filter (fun x => negb (f x)) l ≡ₚ l.
Proof.
  induction l as [|x l IH]; simpl; [done|].
  destruct (f x); simpl.
  - by rewrite IH.
  - rewrite <- Permutation_middle. by rewrite IH.
Qed.

(** X19. The highlighted and the regular summary items split the summary:
    together they are its items, each item in exactly one of the two
    lists, each list in the summary's order; a report without a summary
    has neither. *)
Theorem summary_items_split (summary : option ReportSummary) :
  let all := match summary with Some s => items s | None => [] end in
  let hi := ReportPrintComponent.getHighlightedItems summary in
  let lo := ReportPrintComponent.getRegularItems summary in
  hi ++ lo ≡ₚ all /\
  length hi + length lo = length all /\
  Forall (fun item => highlight item = Some true) hi /\
  Forall (fun item => highlight item <> Some true) lo /\
  sublist hi all /\ sublist lo all /\
  (ReportPrintComponent.hasSummary summary = false -> hi = [] /\ lo = []).
Proof.
  cbv zeta.
  unfold ReportPrintComponent.getHighlightedItems,
    ReportPrintComponent.getRegularItems, ReportPrintComponent.hasSummary.
  destruct summary as [[ttl l]|]; simpl.
  2: { repeat split; done. }
  destruct (Nat.eqb (length l) 0) eqn:E; simpl.
  { destruct l; [|done]. repeat split; done. }
  clear E.
  assert (forall f : SummaryItem -> bool, sublist (List.filter f l) l) as Hsub.
  { intros f. induction l as [|x l IH]; simpl; [constructor|].
    destruct (f x); by constructor. }
  split; [apply filter_split|].
  split; [rewrite <- length_app; by rewrite filter_split|].
  split.
  { apply Forall_forall. intros x Hx. apply list_elem_of_In in Hx.
    apply filter_In in Hx as [_ Hx].
    unfold ReportPrintComponent.highlighted in Hx.
    by destruct (highlight x) as [[]|]. }
  split.
  { apply Forall_forall. intros x Hx. apply list_elem_of_In in Hx.
    apply filter_In in Hx as [_ Hx].
    unfold ReportPrintComponent.highlighted in Hx.
    by destruct (highlight x) as [[]|]. }
  split; [apply Hsub|]. split; [apply Hsub|]. done.
Qed.

Lemma trimEnd_space_capitals (s : string) :
  all_chars is_alnum s = true ->
  ReportPrintComponent.trimEnd (ReportPrintComponent.space_capitals s) =
  ReportPrintComponent.space_capitals s.
Proof.
  induction s as [|c s IH]; simpl; [done|].
  intros H. apply andb_true_iff in H as [Hc Hs]. specialize (IH Hs).
  assert (ReportPrintComponent.is_space c = false) as Hsp.
  { revert Hc. clear. destruct c as [[] [] [] [] [] [] [] []]; by vm_compute. }
  destruct (ReportPrintComponent.is_upper c); simpl; rewrite IH, Hsp;
    by destruct (ReportPrintComponent.space_capitals s).
Qed.

(** X20. [formatHeader] on a field name (letters and digits): the first
    character is put in upper case and every later capital letter gets one
    space before it; nothing else changes.  The empty name stays empty. *)
Theorem formatHeader_field_name (c : Ascii.ascii) (rest : string) :
  is_alnum c = true ->
  all_chars is_alnum rest = true ->
  ReportPrintComponent.formatHeader (String c rest) =
  String (ReportPrintComponent.toUpperCase_char c)
         (ReportPrintComponent.space_capitals rest).
Proof.
  intros Hc Hrest.
  pose proof (trimEnd_space_capitals rest Hrest) as Ht.
  unfold ReportPrintComponent.formatHeader, ReportPrintComponent.trim.
  simpl.
  assert (ReportPrintComponent.is_space c = false /\
          ReportPrintComponent.is_line_terminator c = false /\
          ReportPrintComponent.is_space
            (ReportPrintComponent.toUpperCase_char c) = false /\
          (ReportPrintComponent.is_upper c = true ->
           ReportPrintComponent.toUpperCase_char c = c))
    as (Hsp & Hlt & Hsp' & Hup).
  { revert Hc. clear. destruct c as [[] [] [] [] [] [] [] []]; by vm_compute. }
  destruct (ReportPrintComponent.is_upper c) eqn:Hu.
  - simpl. rewrite Hsp. rewrite (Hup eq_refl). simpl. rewrite Ht, Hsp.
    by destruct (ReportPrintComponent.space_capitals rest).
  - unfold ReportPrintComponent.capitalize_first. rewrite Hlt. simpl.
    rewrite Hsp'. simpl. rewrite Ht, Hsp'.
    by destruct (ReportPrintComponent.space_capitals rest).
Qed.

Lemma formatHeader_field_name_witness :
  ReportPrintComponent.formatHeader "firstName" = "First Name" /\
  ReportPrintComponent.formatHeader "TotalAmountUSD" = "Total Amount U S D".
Proof.
  split.
  - exact (formatHeader_field_name (Ascii.ascii_of_nat 102) "irstName"
             eq_refl eq_refl).
  - exact (formatHeader_field_name (Ascii.ascii_of_nat 84) "otalAmountUSD"
             eq_refl eq_refl).
Defined.

(* ===================================================================== *)
(** ** The status message of the demo page                                *)
(* ===================================================================== *)

(** X21. A status message is gone five seconds after [setMessage]; but the
    timers are never cancelled, so a message set [early] ms after another
    one (0 < [early] < 5000) is already emptied by the first one's timer, after
    only 5000 - [early] ms on screen, with its own timer still pending. *)
Theorem setMessage_cleared_by_earlier_timer (a : AppComponent.t)
  (m1 m2 : string) (t1 t2 : MessageType) (early : nat) :
  0 < early < 5000 ->
  AppComponent.message
    (AppComponent.elapse 5000 (AppComponent.setMessage m1 t1 a))
    = EmptyString /\
  let shown :=
    AppComponent.setMessage m2 t2
      (AppComponent.elapse early (AppComponent.setMessage m1 t1 a)) in
  AppComponent.message shown = m2 /\
  AppComponent.message (AppComponent.elapse (5000 - early) shown)
    = EmptyString /\
  In (AppComponent.clock a + early + 5000)
     (AppComponent.pending (AppComponent.elapse (5000 - early) shown)).
Proof.
  intros Hearly. split; [|cbv zeta; split; [done|split]].
  - unfold AppComponent.elapse, AppComponent.setMessage. simpl.
    rewrite existsb_app. simpl. rewrite Nat.leb_refl.
    by rewrite orb_true_r.
  - unfold AppComponent.elapse, AppComponent.setMessage. simpl.
    rewrite existsb_app. simpl.
    assert (Nat.leb (AppComponent.clock a + early + 5000)
              (AppComponent.clock a + early + (5000 - early)) = false) as ->
      by (apply Nat.leb_gt; lia).
    simpl. rewrite orb_false_r.
    match goal with |- (if ?b then _ else _) = _ =>
      assert (b = true) as ->; [|done] end.
    apply existsb_exists. exists (AppComponent.clock a + 5000). split.
    + apply filter_In. split.
      * apply in_or_app. right. by left.
      * apply negb_true_iff, Nat.leb_gt. lia.
    + apply Nat.leb_le. lia.
  - unfold AppComponent.elapse, AppComponent.setMessage. simpl.
    apply filter_In. split.
    + apply in_or_app. right. by left.
    + apply negb_true_iff, Nat.leb_gt. lia.
Qed.

Lemma setMessage_cleared_by_earlier_timer_witness :
  0 < 4000 < 5000 /\
  AppComponent.message
    (AppComponent.elapse 1000
       (AppComponent.setMessage "Report preview opened successfully!" success
          (AppComponent.elapse 4000
             (AppComponent.setMessage "Invoice preview opened successfully!"
                success
                {| AppComponent.isLoading := false;
                   AppComponent.message := EmptyString;
                   AppComponent.messageType := info;
                   AppComponent.pending := [];
                   AppComponent.clock := 0 |}))))
    = EmptyString.
Proof.
  split; [lia|].
  exact (proj1 (proj2 (proj2
    (setMessage_cleared_by_earlier_timer
       {| AppComponent.isLoading := false;
          AppComponent.message := EmptyString;
          AppComponent.messageType := info;
          AppComponent.pending := [];
          AppComponent.clock := 0 |}
       "Invoice preview opened successfully!"
       "Report preview opened successfully!" success success 4000
       ltac:(lia))))).
Defined.


